(** * Credential service of [my-fullstack-app/server.js]

    A shallow embedding of the Express server: the [users] table it creates,
    its two routes [/api/register] and [/api/login], the start-up sequence
    ([app.listen] followed by [initializeDatabase]), and the properties the
    specification states about them.

    The server talks to three collaborators that are not part of the
    repository: the PostgreSQL store (through [pg]), the [bcrypt] package and
    the Node runtime.  The store is modelled by the meaning of the three SQL
    statements the source sends, under the constraints its own DDL declares;
    [bcrypt] is a pair of section variables with the part of its contract a
    property needs stated as a hypothesis next to it. *)

From Stdlib Require Import String Ascii List ZArith Lia Bool Arith.
From Stdlib Require Import SpecFloat Sorted.
Import ListNotations.
Open Scope Z_scope.
Open Scope string_scope.

(** ** JavaScript values *)

(** The values a parsed JSON body, a result row or an error property can
    hold.  A number is an IEEE-754 double. *)
#[warnings="-register-all"]
Inductive value : Type :=
| VUndefined
| VNull
| VBool (b : bool)
| VNum (x : spec_float)
| VStr (s : string)
| VDate (ms : Z)
| VArr (items : list value)
| VObj (props : list (string * value)).

(** An object is the list of its own properties, each key once. *)
Definition object : Type := list (string * value).

(** The double nearest to an integer (exact below 2^53). *)
Definition number_of_Z (z : Z) : spec_float :=
  binary_normalize 53 1024 z 0 false.

(** [ToBoolean]: the only falsy values are [undefined], [null], [false],
    [+0], [-0], [NaN] and the empty string. *)
Definition truthy (v : value) : bool :=
  match v with
  | VUndefined => false
  | VNull => false
  | VBool b => b
  | VNum (S754_zero _) => false
  | VNum S754_nan => false
  | VNum _ => true
  | VStr s => negb (s =? "")
  | VDate _ => true
  | VArr _ => true
  | VObj _ => true
  end.

(** [o.k] on an object: the property, or [undefined] when it is absent. *)
Fixpoint get (o : object) (k : string) : value :=
  match o with
  | [] => VUndefined
  | (k', v) :: rest => if k' =? k then v else get rest k
  end.

(** [v.k] on any value that is not [null] or [undefined]. *)
Definition get_prop (v : value) (k : string) : value :=
  match v with
  | VObj props => get props k
  | _ => VUndefined
  end.

(** [v === s] for a string literal [s]. *)
Definition strict_equal_string (v : value) (s : string) : bool :=
  match v with
  | VStr t => t =? s
  | _ => false
  end.

(** ** Errors that can be thrown *)

Inductive error : Type :=
| PgError (sqlstate : string)   (* DatabaseError of pg, [err.code] is the SQLSTATE *)
| ConnError                     (* the store cannot be reached *)
| BcryptError (message : string).

(** [err.code] *)
Definition code (e : error) : value :=
  match e with
  | PgError sqlstate => VStr sqlstate
  | ConnError => VStr "ECONNREFUSED"
  | BcryptError _ => VUndefined
  end.

(** ** The store: PostgreSQL restricted to the statements of the source *)

(** Strings are the UTF-8 bytes sent on the wire.  [VARCHAR(n)] counts
    characters, that is bytes that are not continuation bytes (10xxxxxx). *)
Definition continuation (c : ascii) : bool :=
  let n := nat_of_ascii c in (128 <=? n)%nat && (n <? 192)%nat.

Fixpoint char_length (s : string) : nat :=
  match s with
  | EmptyString => O
  | String c rest =>
      if continuation c then char_length rest else S (char_length rest)
  end.

(** The first [n] characters of [s]. *)
Fixpoint clip (n : nat) (s : string) : string :=
  match s with
  | EmptyString => EmptyString
  | String c rest =>
      if continuation c then String c (clip n rest)
      else match n with
           | O => EmptyString
           | S m => String c (clip m rest)
           end
  end.

(** What follows the first [n] characters of [s]. *)
Fixpoint excess (n : nat) (s : string) : string :=
  match s with
  | EmptyString => EmptyString
  | String c rest =>
      if continuation c then excess n rest
      else match n with
           | O => s
           | S m => excess m rest
           end
  end.

Fixpoint all_spaces (s : string) : bool :=
  match s with
  | EmptyString => true
  | String c rest => Ascii.eqb c " " && all_spaces rest
  end.

(** Whether a string holds the character U+0000, which PostgreSQL refuses
    in a text parameter. *)
Fixpoint holds_nul (s : string) : bool :=
  match s with
  | EmptyString => false
  | String c rest => Ascii.eqb c zero || holds_nul rest
  end.

(** Assignment of a string to a [VARCHAR(n)] column: kept when it fits;
    when it is too long it is an error (SQLSTATE 22001) unless every excess
    character is a space, in which case the value is cut to [n] characters
    (PostgreSQL manual, 8.3 Character Types). *)
Definition coerce_varchar (n : nat) (s : string) : option string :=
  if (char_length s <=? n)%nat then Some s
  else if all_spaces (excess n s) then Some (clip n s)
  else None.

(** A row of [users], as the DDL of [initializeDatabase] declares it. *)
Record user : Type := {
  id : Z;                    (* SERIAL PRIMARY KEY *)
  username : string;         (* VARCHAR(50) UNIQUE NOT NULL *)
  password_hash : string;    (* VARCHAR(100) NOT NULL *)
  created_at : Z             (* TIMESTAMP WITH TIME ZONE DEFAULT CURRENT_TIMESTAMP *)
}.

(** A relation of the catalog with the sequence that feeds its [id]. *)
Record relation : Type := {
  relname : string;
  tuples : list user;
  last_value : Z             (* last value handed out by users_id_seq *)
}.

(** Whether the store can be talked to.  [Healthy]: it runs the statement
    it is sent as the definitions below say.  [Unreachable]: no connection
    can be made.  [Failing]: it is reached and refuses the statement with an
    SQLSTATE of its own; this stands for every refusal that the DDL of the
    source does not decide (a missing privilege, an exhausted sequence or
    disk, a parameter it cannot decode, ...). *)
Inductive health : Type :=
| Healthy
| Unreachable
| Failing (sqlstate : string).

Record database : Type := {
  catalog : list relation;
  status : health;
  clock : Z                  (* CURRENT_TIMESTAMP *)
}.

(** The three statements the source sends, with their bound parameters. *)
Inductive statement : Type :=
| CreateUsers                                      (* CREATE TABLE IF NOT EXISTS users (...) *)
| InsertUser (username password_hash : string)     (* INSERT INTO users ... RETURNING id, username *)
| SelectUser (username : string).                  (* SELECT * FROM users WHERE username = $1 *)

Definition named (name : string) (r : relation) : bool := relname r =? name.

Definition find_relation (name : string) (cat : list relation) : option relation :=
  find (named name) cat.

(** Replaces the first relation called [relname r'] by [r']. *)
Fixpoint put_relation (r' : relation) (cat : list relation) : list relation :=
  match cat with
  | [] => []
  | r :: rest =>
      if named (relname r') r then r' :: rest else r :: put_relation r' rest
  end.

Definition with_catalog (d : database) (cat : list relation) : database :=
  {| catalog := cat; status := status d; clock := clock d |}.

Definition empty_users : relation :=
  {| relname := "users"; tuples := []; last_value := 0 |}.

(** CREATE TABLE IF NOT EXISTS users: a no-op when a relation of that name
    exists. *)
Definition create_users (cat : list relation) : list relation :=
  if existsb (named "users") cat then cat else cat ++ [empty_users].

(** The row object of RETURNING id, username. *)
Definition returning_row (t : user) : value :=
  VObj [("id", VNum (number_of_Z (id t))); ("username", VStr (username t))].

(** The row object of SELECT *. *)
Definition full_row (t : user) : value :=
  VObj [("id", VNum (number_of_Z (id t)));
        ("username", VStr (username t));
        ("password_hash", VStr (password_hash t));
        ("created_at", VDate (created_at t))].

Definition taken (u : string) (r : relation) : bool :=
  existsb (fun t => username t =? u) (tuples r).

Definition advance (r : relation) : relation :=
  {| relname := relname r; tuples := tuples r; last_value := last_value r + 1 |}.

Definition append_tuple (r : relation) (t : user) : relation :=
  {| relname := relname r; tuples := tuples r ++ [t]; last_value := id t |}.

(** INSERT INTO users (username, password_hash) VALUES ($1, $2)
    RETURNING id, username.  A value too long for its column is refused
    (22001) before the sequence is touched; a duplicate username is refused
    (23505) after the row took its sequence value, which is then lost.
    Two refusals of the real server are not part of this definition: a text
    parameter that holds the character U+0000 (22021, raised when the
    parameters are bound) and a sequence beyond 2^31-1.  The properties that
    would depend on them say so in their premises. *)
Definition insert_user (u h : string) (d : database)
  : (list value + error) * database :=
  match find_relation "users" (catalog d) with
  | None => (inr (PgError "42P01"), d)
  | Some r =>
      match coerce_varchar 50 u, coerce_varchar 100 h with
      | Some u', Some h' =>
          if taken u' r
          then (inr (PgError "23505"), with_catalog d (put_relation (advance r) (catalog d)))
          else
            let t := {| id := last_value r + 1; username := u';
                        password_hash := h'; created_at := clock d |} in
            (inl [returning_row t],
             with_catalog d (put_relation (append_tuple r t) (catalog d)))
      | _, _ => (inr (PgError "22001"), d)
      end
  end.

(** SELECT * FROM users WHERE username = $1: byte-wise comparison.  As for
    the INSERT, the refusal of a parameter that holds U+0000 is not part of
    this definition. *)
Definition select_user (u : string) (d : database) : list value + error :=
  match find_relation "users" (catalog d) with
  | None => inr (PgError "42P01")
  | Some r => inl (map full_row (filter (fun t => username t =? u) (tuples r)))
  end.

(** One statement against the store: its rows or the error it raises, and
    the store afterwards. *)
Definition exec (q : statement) (d : database) : (list value + error) * database :=
  match status d with
  | Unreachable => (inr ConnError, d)
  | Failing sqlstate => (inr (PgError sqlstate), d)
  | Healthy =>
      match q with
      | CreateUsers => (inl [], with_catalog d (create_users (catalog d)))
      | InsertUser u h => insert_user u h d
      | SelectUser u => (select_user u d, d)
      end
  end.

(** ** The world a handler runs in, and the monad of its effects *)

Inductive line : Type :=
| LogLine (text : string)                    (* console.log(text) *)
| ErrorLine (text : string) (e : error).     (* console.error(text, e), console.error(e) *)

Record world : Type := {
  store : database;
  issued : list statement;     (* statements handed to pg so far, oldest first *)
  console : list line;         (* oldest first *)
  checked_out : nat;           (* clients taken from the pool and not yet released *)
  listening : bool;            (* the HTTP server accepts requests *)
  strict_rejections : bool;    (* --unhandled-rejections=throw, the default since Node 15 *)
  rejections : list error      (* promise rejections nobody handled *)
}.

Inductive result (A : Type) : Type :=
| Return (a : A)
| Throw (e : error).
Arguments Return {A} a.
Arguments Throw {A} e.

(** An asynchronous computation awaited to its end: it returns or throws,
    and leaves a world behind.  Handlers and the initialisation run one at a
    time; the interleaving of concurrent requests is not modelled. *)
Definition M (A : Type) : Type := world -> result A * world.

Definition ret {A : Type} (a : A) : M A := fun w => (Return a, w).

Definition throw {A : Type} (e : error) : M A := fun w => (Throw e, w).

Definition bind {A B : Type} (c : M A) (k : A -> M B) : M B :=
  fun w =>
    match c w with
    | (Return a, w') => k a w'
    | (Throw e, w') => (Throw e, w')
    end.

Declare Scope js_scope.
Delimit Scope js_scope with js.
Notation "x <- c ;; k" := (bind c (fun x => k))
  (at level 61, c at next level, right associativity) : js_scope.
Notation "c ;;; k" := (bind c (fun _ => k))
  (at level 61, right associativity) : js_scope.
Open Scope js_scope.

(** try { body } catch (err) { handler } *)
Definition try_catch {A : Type} (body : M A) (handler : error -> M A) : M A :=
  fun w =>
    match body w with
    | (Return a, w') => (Return a, w')
    | (Throw e, w') => handler e w'
    end.

(** try { body } finally { cleanup } *)
Definition try_finally {A : Type} (body : M A) (cleanup : M unit) : M A :=
  fun w =>
    match body w with
    | (r, w') =>
        match cleanup w' with
        | (Return _, w'') => (r, w'')
        | (Throw e, w'') => (Throw e, w'')
        end
    end.

Definition set_store (w : world) (d : database) (q : statement) : world :=
  {| store := d; issued := issued w ++ [q]; console := console w;
     checked_out := checked_out w; listening := listening w;
     strict_rejections := strict_rejections w; rejections := rejections w |}.

Definition set_console (w : world) (l : list line) : world :=
  {| store := store w; issued := issued w; console := l;
     checked_out := checked_out w; listening := listening w;
     strict_rejections := strict_rejections w; rejections := rejections w |}.

Definition set_checked_out (w : world) (n : nat) : world :=
  {| store := store w; issued := issued w; console := console w;
     checked_out := n; listening := listening w;
     strict_rejections := strict_rejections w; rejections := rejections w |}.

Definition set_listening (w : world) (b : bool) : world :=
  {| store := store w; issued := issued w; console := console w;
     checked_out := checked_out w; listening := b;
     strict_rejections := strict_rejections w; rejections := rejections w |}.

Definition add_rejection (w : world) (e : error) : world :=
  {| store := store w; issued := issued w; console := console w;
     checked_out := checked_out w; listening := listening w;
     strict_rejections := strict_rejections w; rejections := rejections w ++ [e] |}.

(** The environment acts on the store: its health and its clock. *)
Definition set_environment (w : world) (h : health) (now : Z) : world :=
  {| store := {| catalog := catalog (store w); status := h; clock := now |};
     issued := issued w; console := console w;
     checked_out := checked_out w; listening := listening w;
     strict_rejections := strict_rejections w; rejections := rejections w |}.

(** Sends one statement and awaits its rows: [pool.query] and
    [client.query]. *)
Definition send (q : statement) : M (list value) :=
  fun w =>
    match exec q (store w) with
    | (inl rows, d) => (Return rows, set_store w d q)
    | (inr e, d) => (Throw e, set_store w d q)
    end.

Definition pool_query (q : statement) : M (list value) := send q.

Definition client_query (q : statement) : M (list value) := send q.

(** [pool.connect()]: a client, or a rejection when the store cannot be
    reached. *)
Definition pool_connect : M unit :=
  fun w =>
    match status (store w) with
    | Unreachable => (Throw ConnError, w)
    | _ => (Return tt, set_checked_out w (S (checked_out w)))
    end.

Definition client_release : M unit :=
  fun w => (Return tt, set_checked_out w (Nat.pred (checked_out w))).

Definition console_log (text : string) : M unit :=
  fun w => (Return tt, set_console w (console w ++ [LogLine text])).

Definition console_error (text : string) (e : error) : M unit :=
  fun w => (Return tt, set_console w (console w ++ [ErrorLine text e])).

(** What a handler sends with [res.status(s).json(b)]. *)
Record response : Type := {
  status_code : Z;
  body : value
}.

Definition json (s : Z) (b : object) : response :=
  {| status_code := s; body := VObj b |}.

(** ** Schema initialisation (server.js, lines 23-40) *)

(** The double quote character, for the log line that quotes the table
    name. *)
Definition dquote : string := String (ascii_of_nat 34) EmptyString.

(** The line logged when the schema is in place. *)
Definition schema_ready : string :=
  "数据库 " ++ dquote ++ "users" ++ dquote ++ " 表已准备就绪。".

Definition initializeDatabase : M unit :=
  _ <- pool_connect ;;
  try_finally
    (try_catch
       (_ <- client_query CreateUsers ;;
        console_log schema_ready)
       (fun err => console_error "数据库初始化失败:" err))
    client_release.

(** ** Start-up (server.js, lines 104-107) *)

(** [app.listen(PORT, callback)]: the server listens, then the callback logs
    the port and calls [initializeDatabase()] without awaiting it or handling
    its rejection.  A rejection nobody handles ends the process when the
    runtime is strict about them. *)
Definition app_listen (port : string) (w : world) : world :=
  let w1 := set_listening w true in
  match (console_log ("服务器正在端口 " ++ port ++ " 上运行...") ;;;
         initializeDatabase) w1 with
  | (Return _, w2) => w2
  | (Throw e, w2) =>
      let w3 := add_rejection w2 e in
      if strict_rejections w3 then set_listening w3 false else w3
  end.

(** ** Vocabulary of the properties *)

(** The rows of [users]; none when the table does not exist. *)
Definition users_of (d : database) : list user :=
  match find_relation "users" (catalog d) with
  | Some r => tuples r
  | None => []
  end.

(** How many relations of the catalog are called [users]. *)
Definition count_users (cat : list relation) : nat :=
  length (filter (named "users") cat).

(** What the constraints of the DDL maintain on the rows of [users]. *)
Record well_formed (rows : list user) : Prop := {
  usernames_fit : Forall (fun t => (char_length (username t) <= 50)%nat) rows;
  usernames_unique : NoDup (map username rows)
}.

(** What SERIAL PRIMARY KEY maintains on a relation: the ids of its rows
    increase in the order the rows were stored, and none is beyond the last
    value the sequence handed out. *)
Definition ids_in_order (r : relation) : Prop :=
  StronglySorted Z.lt (map id (tuples r)) /\
  Forall (fun t => id t <= last_value r) (tuples r).

(** The six responses the two routes can send. *)
Definition bad_request : response :=
  json 400 [("message", VStr "用户名和密码不能为空")].

Definition created (user : value) : response :=
  json 201 [("message", VStr "注册成功"); ("user", user)].

Definition conflict : response :=
  json 409 [("message", VStr "用户名已存在")].

Definition server_error : response :=
  json 500 [("message", VStr "服务器内部错误")].

Definition rejected : response :=
  json 401 [("message", VStr "用户名或密码错误")].

Definition accepted : response :=
  json 200 [("message", VStr "登录成功")].

(** A field that is missing from the body, or the empty string. *)
Definition missing_or_empty (v : value) : Prop :=
  v = VUndefined \/ v = VStr "".

(** The falsy values a JSON body can hold. *)
Definition falsy_json : list value :=
  [VNum (number_of_Z 0); VBool false; VNull; VStr ""].

(** The store raises an error when asked to create the schema. *)
Definition schema_init_fails (w : world) : Prop :=
  status (store w) = Unreachable \/
  exists e, fst (exec CreateUsers (store w)) = inr e.

(** The body [{ username: u, password: p }]. *)
Definition credentials (u p : string) : object :=
  [("username", VStr u); ("password", VStr p)].

(** ** Stand-ins for the collaborators, to run the model on concrete inputs *)

(** A digest of bcrypt's shape: 60 characters, its first one different from
    the first one of the data. *)
Definition shaped_hash (data : string) (rounds : Z) (salt : string) : string :=
  match data with
  | String "$" _ => "#2b$10$N9qo8uLOickgx2ZMRZoMyeIjZAgcfl7p92ldGxad68LJZdL17lhWy"
  | _ => "$2b$10$N9qo8uLOickgx2ZMRZoMyeIjZAgcfl7p92ldGxad68LJZdL17lhWy"
  end.

Definition shaped_compare (data encrypted : string) : bool :=
  encrypted =? shaped_hash data 10 "".

(** A symbolic digest: the data behind a marker, so that different data
    never share a digest. *)
Definition symbolic_hash (data : string) (rounds : Z) (salt : string) : string :=
  "$" ++ data.

Definition symbolic_compare (data encrypted : string) : bool :=
  encrypted =? symbolic_hash data 10 "".

(** A digest that, like bcrypt, reads only the first 72 bytes of the data,
    and tells apart any two data that differ within them. *)
Definition truncating_hash (data : string) (rounds : Z) (salt : string) : string :=
  "$" ++ substring 0 72 data.

Definition truncating_compare (data encrypted : string) : bool :=
  encrypted =? truncating_hash data 10 "".

(** Two passwords of 73 bytes that differ in the last one only. *)
Definition long_password : string :=
  "aaaaaaaaaaaaaaaaaaaaaaaaaaaaaaaaaaaaaaaaaaaaaaaaaaaaaaaaaaaaaaaaaaaaaaaab".

Definition near_password : string :=
  "aaaaaaaaaaaaaaaaaaaaaaaaaaaaaaaaaaaaaaaaaaaaaaaaaaaaaaaaaaaaaaaaaaaaaaaac".

Definition sample_text (v : value) : string :=
  match v with
  | VBool true => "true"
  | VBool false => "false"
  | _ => ""
  end.

(** A process that has not started, in front of a reachable store without
    any table. *)
Definition fresh_world : world :=
  {| store := {| catalog := []; status := Healthy; clock := 0 |};
     issued := []; console := []; checked_out := 0%nat;
     listening := false; strict_rejections := true; rejections := [] |}.

(** The same, in front of a store that refuses statements for lack of
    privilege (SQLSTATE 42501). *)
Definition denied_world : world :=
  {| store := {| catalog := []; status := Failing "42501"; clock := 0 |};
     issued := []; console := []; checked_out := 0%nat;
     listening := false; strict_rejections := true; rejections := [] |}.

(** The same, in front of a store that cannot be reached, under a runtime
    that only warns about unhandled rejections. *)
Definition unreachable_world : world :=
  {| store := {| catalog := []; status := Unreachable; clock := 0 |};
     issued := []; console := []; checked_out := 0%nat;
     listening := false; strict_rejections := false; rejections := [] |}.

(** The process once started in front of that reachable store. *)
Definition booted_world : world := app_listen "3000" fresh_world.

(** Fifty letters followed by a space: 51 characters. *)
Definition padded_name : string :=
  "aaaaaaaaaaaaaaaaaaaaaaaaaaaaaaaaaaaaaaaaaaaaaaaaaa ".

(** A world whose [users] table holds alice, registered with the symbolic
    digest of "correct-horse". *)
Definition alice : user :=
  {| id := 1; username := "alice";
     password_hash := symbolic_hash "correct-horse" 10 "salt"; created_at := 0 |}.

Definition alice_world : world :=
  {| store := {| catalog := [ {| relname := "users"; tuples := [alice]; last_value := 1 |} ];
                 status := Healthy; clock := 0 |};
     issued := []; console := []; checked_out := 0%nat;
     listening := true; strict_rejections := true; rejections := [] |}.

(** ** The two routes (server.js, lines 45-100) *)

Section Routes.

(** [bcrypt.hash(data, rounds)] on a string, with the salt it draws, and
    [bcrypt.compare(data, hash)] on two strings. *)
Variable bcrypt_hash : string -> Z -> string -> string.
Variable bcrypt_compare : string -> string -> bool.

(** The text pg sends for a parameter that is not a string ([toString] of
    a number or a boolean, the array literal, [JSON.stringify] of an
    object). *)
Variable js_text : value -> string.

(** [prepareValue] of pg/lib/utils.js. *)
Definition prepareValue (v : value) : string :=
  match v with
  | VStr s => s
  | _ => js_text v
  end.

(** [bcrypt.hash] rejects data that is neither a string nor a Buffer. *)
Definition hash (data : value) (rounds : Z) (salt : string) : M string :=
  match data with
  | VStr s => ret (bcrypt_hash s rounds salt)
  | _ => throw (BcryptError
           "data must be a string or Buffer and salt must either be a salt string or a number of rounds")
  end.

(** [bcrypt.compare] rejects arguments that are not strings. *)
Definition compare (data encrypted : value) : M bool :=
  match data, encrypted with
  | VStr s, VStr h => ret (bcrypt_compare s h)
  | _, _ => throw (BcryptError "data and hash must be strings")
  end.

(** app.post('/api/register', ...).  [req_body] is [req.body] as
    [express.json()] leaves it, the object parsed from the request; [salt]
    is the salt [bcrypt.hash] draws. *)
Definition register (salt : string) (req_body : object) : M response :=
  let username := get req_body "username" in
  let password := get req_body "password" in
  if negb (truthy username) || negb (truthy password) then
    ret (json 400 [("message", VStr "用户名和密码不能为空")])
  else
    try_catch
      (passwordHash <- hash password 10 salt ;;
       rows <- pool_query (InsertUser (prepareValue username)
                                      (prepareValue (VStr passwordHash))) ;;
       ret (json 201 [("message", VStr "注册成功");
                      ("user", nth 0 rows VUndefined)]))
      (fun err =>
         if strict_equal_string (code err) "23505" then
           ret (json 409 [("message", VStr "用户名已存在")])
         else
           (console_error "" err ;;;
            ret (json 500 [("message", VStr "服务器内部错误")]))).

(** app.post('/api/login', ...). *)
Definition login (req_body : object) : M response :=
  let username := get req_body "username" in
  let password := get req_body "password" in
  if negb (truthy username) || negb (truthy password) then
    ret (json 400 [("message", VStr "用户名和密码不能为空")])
  else
    try_catch
      (rows <- pool_query (SelectUser (prepareValue username)) ;;
       let user := nth 0 rows VUndefined in
       if negb (truthy user) then
         ret (json 401 [("message", VStr "用户名或密码错误")])
       else
         (isMatch <- compare password (get_prop user "password_hash") ;;
          if isMatch : bool then
            ret (json 200 [("message", VStr "登录成功")])
          else
            ret (json 401 [("message", VStr "用户名或密码错误")])))
      (fun err =>
         console_error "" err ;;;
         ret (json 500 [("message", VStr "服务器内部错误")])).

(** ** Dispatch *)

Inductive request : Type :=
| PostRegister (req_body : object)
| PostLogin (req_body : object).

Definition handler (salt : string) (req : request) : M response :=
  match req with
  | PostRegister req_body => register salt req_body
  | PostLogin req_body => login req_body
  end.

(** A request is served when the server listens and the handler sends a
    response; [salt] is the salt bcrypt draws if the handler hashes. *)
Definition serve (salt : string) (req : request) (w : world)
  : option (response * world) :=
  if listening w then
    match handler salt req w with
    | (Return r, w') => Some (r, w')
    | (Throw _, _) => None
    end
  else None.

(** ** Runs of the process *)

(** What can happen to the process: it starts, a request arrives (with the
    salt bcrypt will draw if it hashes), or the store changes its health
    and its clock moves. *)
Inductive event : Type :=
| Boots (port : string)
| Arrives (salt : string) (req : request)
| Drifts (h : health) (now : Z).

Definition step (e : event) (w : world) : world :=
  match e with
  | Boots port => app_listen port w
  | Arrives salt req =>
      match serve salt req w with
      | Some (_, w') => w'
      | None => w
      end
  | Drifts h now => set_environment w h now
  end.

Definition run (events : list event) (w : world) : world :=
  fold_left (fun w e => step e w) events w.

(** A row is registered in a run when one of its registration requests
    carried a password of which the row holds the digest. *)
Definition registered_in (events : list event) (t : user) : Prop :=
  exists salt req_body p,
    In (Arrives salt (PostRegister req_body)) events /\
    get req_body "password" = VStr p /\
    password_hash t = bcrypt_hash p 10 salt.

(** ** Facts about strings and [VARCHAR(n)] *)

Lemma truthy_string (s : string) : truthy (VStr s) = true <-> s <> "".
Proof.
  simpl. destruct s as [| c s]; simpl; split; intro H; try discriminate;
    try reflexivity; congruence.
Qed.

Lemma char_length_le_length (s : string) :
  (char_length s <= String.length s)%nat.
Proof.
  induction s as [| c s IH]; simpl; [lia |].
  destruct (continuation c); lia.
Qed.

Lemma coerce_varchar_fits (n : nat) (s : string) :
  (char_length s <= n)%nat -> coerce_varchar n s = Some s.
Proof.
  intro H. unfold coerce_varchar.
  destruct (Nat.leb_spec (char_length s) n); [reflexivity | lia].
Qed.

Lemma char_length_clip (s : string) :
  forall n, (char_length (clip n s) <= n)%nat.
Proof.
  induction s as [| c s IH]; intro n; simpl; [lia |].
  destruct (continuation c) eqn:Hc; simpl.
  - rewrite Hc. apply IH.
  - destruct n as [| m]; simpl; [lia |].
    rewrite Hc. specialize (IH m). lia.
Qed.

Lemma clip_nonempty (n : nat) (s : string) :
  s <> "" -> clip (S n) s <> "".
Proof.
  destruct s as [| c s]; simpl; [congruence |].
  intros _. destruct (continuation c); discriminate.
Qed.

(** What a [VARCHAR(n)] column ends up holding has at most [n]
    characters, and is empty only if the value assigned was. *)
Lemma coerce_varchar_sound (n : nat) (s s' : string) :
  coerce_varchar (S n) s = Some s' ->
  (char_length s' <= S n)%nat /\ (s <> "" -> s' <> "").
Proof.
  unfold coerce_varchar.
  destruct (Nat.leb_spec (char_length s) (S n)) as [Hle | Hgt].
  - intros [= <-]. split; [exact Hle | auto].
  - destruct (all_spaces (excess (S n) s)); [| discriminate].
    intros [= <-]. split; [apply char_length_clip | apply clip_nonempty].
Qed.

(** ** Facts about the catalog *)

Lemma find_relation_named (name : string) (cat : list relation) (r : relation) :
  find_relation name cat = Some r -> relname r = name.
Proof.
  unfold find_relation. intro H. apply find_some in H as [_ H].
  unfold named in H. now apply String.eqb_eq in H.
Qed.

Lemma find_put_relation (name : string) (cat : list relation) (r r' : relation) :
  find_relation name cat = Some r ->
  relname r' = name ->
  find_relation name (put_relation r' cat) = Some r'.
Proof.
  unfold find_relation. intros H Hname. subst name.
  induction cat as [| x cat IH]; simpl in *; [discriminate |].
  destruct (named (relname r') x) eqn:Hx; simpl.
  - unfold named at 1. now rewrite String.eqb_refl.
  - rewrite Hx. apply IH, H.
Qed.

Lemma count_users_put (cat : list relation) (r' : relation) :
  relname r' = "users" ->
  count_users (put_relation r' cat) = count_users cat.
Proof.
  unfold count_users. intro Hname.
  induction cat as [| x cat IH]; simpl; [reflexivity |].
  rewrite Hname. destruct (named "users" x) eqn:Hx; simpl.
  - unfold named at 1. rewrite Hname. simpl. reflexivity.
  - rewrite Hx. exact IH.
Qed.

Lemma count_users_none (cat : list relation) :
  existsb (named "users") cat = false -> count_users cat = 0%nat.
Proof.
  unfold count_users. induction cat as [| x cat IH]; simpl; [reflexivity |].
  intro H. apply orb_false_iff in H as [Hx Hrest]. rewrite Hx. auto.
Qed.

Lemma count_users_some (cat : list relation) :
  existsb (named "users") cat = true -> (1 <= count_users cat)%nat.
Proof.
  unfold count_users. induction cat as [| x cat IH]; simpl; [discriminate |].
  intro H. destruct (named "users" x); simpl; [lia |]. auto.
Qed.

Lemma count_users_app (cat cat' : list relation) :
  count_users (cat ++ cat') = (count_users cat + count_users cat')%nat.
Proof.
  unfold count_users. now rewrite filter_app, length_app.
Qed.

(** CREATE TABLE IF NOT EXISTS leaves exactly one [users] relation where
    there was at most one. *)
Lemma count_users_create (cat : list relation) :
  (count_users cat <= 1)%nat -> count_users (create_users cat) = 1%nat.
Proof.
  intro H. unfold create_users.
  destruct (existsb (named "users") cat) eqn:Hx.
  - apply count_users_some in Hx. lia.
  - rewrite count_users_app, (count_users_none _ Hx). reflexivity.
Qed.

Lemma create_users_idempotent (cat : list relation) :
  create_users (create_users cat) = create_users cat.
Proof.
  unfold create_users at 2.
  destruct (existsb (named "users") cat) eqn:Hx.
  - unfold create_users. now rewrite Hx.
  - unfold create_users. rewrite existsb_app. cbn.
    now rewrite orb_true_r, Hx.
Qed.

(** ** The handlers, one step at a time *)

(** A request whose username or password is falsy is answered 400 and
    leaves the world as it was. *)
Lemma register_falsy (salt : string) (req_body : object) (w : world) :
  truthy (get req_body "username") = false \/
  truthy (get req_body "password") = false ->
  register salt req_body w = (Return bad_request, w).
Proof.
  intros [H | H]; unfold register; rewrite H; simpl;
    [| rewrite orb_true_r]; reflexivity.
Qed.

Lemma login_falsy (req_body : object) (w : world) :
  truthy (get req_body "username") = false \/
  truthy (get req_body "password") = false ->
  login req_body w = (Return bad_request, w).
Proof.
  intros [H | H]; unfold login; rewrite H; simpl;
    [| rewrite orb_true_r]; reflexivity.
Qed.

(** Past the presence check with a string password, [/api/register] is
    one INSERT and a case analysis on its outcome. *)
Lemma register_run (salt : string) (req_body : object) (w : world) (p : string) :
  truthy (get req_body "username") = true ->
  get req_body "password" = VStr p ->
  p <> "" ->
  let q := InsertUser (prepareValue (get req_body "username"))
                      (bcrypt_hash p 10 salt) in
  register salt req_body w =
  match exec q (store w) with
  | (inl rows, d) => (Return (created (nth 0 rows VUndefined)), set_store w d q)
  | (inr e, d) =>
      if strict_equal_string (code e) "23505"
      then (Return conflict, set_store w d q)
      else (Return server_error,
            set_console (set_store w d q)
                        (console (set_store w d q) ++ [ErrorLine "" e]))
  end.
Proof.
  intros Hu Hp Hne q. unfold register.
  rewrite Hu, Hp. apply truthy_string in Hne. rewrite Hne.
  cbn [negb orb]. unfold try_catch, bind, hash, ret, pool_query, send. simpl prepareValue.
  fold q. destruct (exec q (store w)) as [[rows | e] d]; [reflexivity |].
  destruct (strict_equal_string (code e) "23505"); reflexivity.
Qed.

(** With a password that is not a string, bcrypt throws before anything
    is sent to the store. *)
Lemma register_not_string (salt : string) (req_body : object) (w : world) :
  truthy (get req_body "username") = true ->
  truthy (get req_body "password") = true ->
  (forall p, get req_body "password" <> VStr p) ->
  exists message,
    register salt req_body w =
    (Return server_error,
     set_console w (console w ++ [ErrorLine "" (BcryptError message)])).
Proof.
  intros Hu Hp Hns. unfold register. rewrite Hu, Hp.
  cbn [negb orb]. unfold try_catch, bind, hash.
  destruct (get req_body "password") eqn:E;
    try (eexists; reflexivity).
  exfalso. eapply Hns. reflexivity.
Qed.

(** Past the presence check, [/api/login] is one SELECT, then a
    comparison if a row came back. *)
Lemma login_run (req_body : object) (w : world) :
  truthy (get req_body "username") = true ->
  truthy (get req_body "password") = true ->
  let q := SelectUser (prepareValue (get req_body "username")) in
  let w' := set_store w (store w) q in
  login req_body w =
  match fst (exec q (store w)) with
  | inl rows =>
      let user := nth 0 rows VUndefined in
      if negb (truthy user) then (Return rejected, w')
      else
        match compare (get req_body "password") (get_prop user "password_hash") w' with
        | (Return true, _) => (Return accepted, w')
        | (Return false, _) => (Return rejected, w')
        | (Throw e, _) =>
            (Return server_error, set_console w' (console w' ++ [ErrorLine "" e]))
        end
  | inr e => (Return server_error, set_console w' (console w' ++ [ErrorLine "" e]))
  end.
Proof.
  intros Hu Hp q w'. unfold login. rewrite Hu, Hp.
  cbn [negb orb]. unfold try_catch, bind, pool_query, send. fold q.
  assert (Hd : snd (exec q (store w)) = store w).
  { unfold exec, q. destruct (status (store w)); reflexivity. }
  destruct (exec q (store w)) as [[rows | e] d]; simpl in Hd; subst d; simpl fst;
    fold w'; [| reflexivity].
  cbv beta iota zeta.
  destruct (negb (truthy (nth 0 rows VUndefined))); [reflexivity |].
  unfold compare.
  destruct (get req_body "password"); try reflexivity.
  destruct (get_prop (nth 0 rows VUndefined) "password_hash"); try reflexivity.
  unfold ret. destruct (bcrypt_compare s s0); reflexivity.
Qed.


(** ** The statements, one at a time *)

Lemma users_of_put (d : database) (r r' : relation) :
  find_relation "users" (catalog d) = Some r ->
  relname r' = "users" ->
  users_of (with_catalog d (put_relation r' (catalog d))) = tuples r'.
Proof.
  intros Hr Hname. unfold users_of. simpl.
  now rewrite (find_put_relation _ _ _ _ Hr Hname).
Qed.

(** An INSERT that returns rows has appended exactly one row, whose
    columns are the coerced parameters and whose username was free; an
    INSERT that raises an error has left the rows alone. *)
Lemma exec_insert_spec (u h : string) (d : database) :
  match exec (InsertUser u h) d with
  | (inl rows, d') =>
      exists t,
        rows = [returning_row t] /\
        users_of d' = (users_of d ++ [t])%list /\
        coerce_varchar 50 u = Some (username t) /\
        coerce_varchar 100 h = Some (password_hash t) /\
        existsb (fun x => username x =? username t) (users_of d) = false /\
        status d = Healthy /\ status d' = Healthy
  | (inr e, d') => users_of d' = users_of d
  end.
Proof.
  unfold exec. destruct (status d) eqn:Hs; try reflexivity.
  unfold insert_user.
  destruct (find_relation "users" (catalog d)) as [r |] eqn:Hr; [| reflexivity].
  pose proof (find_relation_named _ _ _ Hr) as Hname.
  assert (Hu : users_of d = tuples r) by (unfold users_of; now rewrite Hr).
  destruct (coerce_varchar 50 u) as [u' |] eqn:Hcu;
    [destruct (coerce_varchar 100 h) as [h' |] eqn:Hch;
     [destruct (taken u' r) eqn:Ht |] |];
    try reflexivity;
    try (rewrite (users_of_put _ _ _ Hr) by exact Hname; now rewrite Hu).
  eexists. repeat split.
  - rewrite (users_of_put _ _ _ Hr) by exact Hname. now rewrite Hu.
  - rewrite Hu. exact Ht.
  - exact Hs.
Qed.


Lemma exec_select_store (u : string) (d : database) :
  snd (exec (SelectUser u) d) = d.
Proof. unfold exec. destruct (status d); reflexivity. Qed.

Lemma exec_select_healthy (u : string) (d : database) :
  status d = Healthy ->
  fst (exec (SelectUser u) d) =
  match find_relation "users" (catalog d) with
  | None => inr (PgError "42P01")
  | Some r => inl (map full_row (filter (fun t => username t =? u) (tuples r)))
  end.
Proof. intro Hs. unfold exec. now rewrite Hs. Qed.

Lemma filter_none (u : string) (rows : list user) :
  existsb (fun t => username t =? u) rows = false ->
  filter (fun t => username t =? u) rows = [].
Proof.
  induction rows as [| x rows IH]; simpl; [reflexivity |].
  intro H. apply orb_false_iff in H as [Hx Hrest]. rewrite Hx. auto.
Qed.

Lemma not_in_not_taken (u : string) (rows : list user) :
  ~ In u (map username rows) ->
  existsb (fun t => username t =? u) rows = false.
Proof.
  intro Hn. destruct (existsb _ rows) eqn:E; [| reflexivity].
  exfalso. apply Hn. apply existsb_exists in E as [t [Hin Heq]].
  apply String.eqb_eq in Heq. subst u. now apply in_map.
Qed.

(** Under the UNIQUE constraint a username selects its row and no other. *)
Lemma filter_unique (rows : list user) (t : user) :
  NoDup (map username rows) ->
  In t rows ->
  filter (fun x => username x =? username t) rows = [t].
Proof.
  induction rows as [| x rows IH]; simpl; [tauto |].
  intros Hnd [-> | Hin]; inversion Hnd as [| ? ? Hx Hrest]; subst.
  - rewrite String.eqb_refl. f_equal.
    apply filter_none, not_in_not_taken, Hx.
  - destruct (String.eqb_spec (username x) (username t)) as [Heq | Hneq].
    + exfalso. apply Hx. rewrite Heq. now apply in_map.
    + auto.
Qed.


(** ** The contract of bcrypt *)

(** A digest is 60 characters long. *)
Hypothesis bcrypt_hash_length :
  forall data salt, String.length (bcrypt_hash data 10 salt) = 60%nat.

(** A digest verifies against the data it was computed from. *)
Hypothesis bcrypt_compare_hash :
  forall data salt, bcrypt_compare data (bcrypt_hash data 10 salt) = true.

(** Symbolic view of the digest: it is never the data itself. *)
Hypothesis bcrypt_hash_differs :
  forall data salt, bcrypt_hash data 10 salt <> data.

Lemma bcrypt_hash_fits (data salt : string) :
  (char_length (bcrypt_hash data 10 salt) <= 100)%nat.
Proof.
  pose proof (char_length_le_length (bcrypt_hash data 10 salt)) as H.
  rewrite bcrypt_hash_length in H. lia.
Qed.

(** ** Input validation *)

(** C6. A request to register or to log in whose username or password is
    missing or empty is answered with the bad-input response (400), and the
    world after the call is the world before it: no statement was handed to
    the store, and the store is unchanged. *)
Theorem bad_input_before_store (salt : string) (req_body : object) (w : world) :
  missing_or_empty (get req_body "username") \/
  missing_or_empty (get req_body "password") ->
  register salt req_body w = (Return bad_request, w) /\
  login req_body w = (Return bad_request, w).
Proof.
  intro H.
  assert (Hf : truthy (get req_body "username") = false \/
               truthy (get req_body "password") = false).
  { destruct H as [[-> | ->] | [-> | ->]]; [left | left | right | right];
      reflexivity. }
  split; [now apply register_falsy | now apply login_falsy].
Qed.

(** C10. The presence check is JavaScript falsiness: when the username or
    the password of the body is any falsy JSON value (0, false, null or the
    empty string), both routes answer with the bad-input response and leave
    the world as it was. *)
Theorem falsy_field_is_bad_input
  (salt : string) (req_body : object) (w : world) (v : value) :
  In v falsy_json ->
  get req_body "username" = v \/ get req_body "password" = v ->
  register salt req_body w = (Return bad_request, w) /\
  login req_body w = (Return bad_request, w).
Proof.
  intros Hv H.
  assert (Hf : truthy v = false).
  { unfold falsy_json in Hv. simpl in Hv.
    destruct Hv as [<- | [<- | [<- | [<- | []]]]]; reflexivity. }
  assert (Hf' : truthy (get req_body "username") = false \/
                truthy (get req_body "password") = false).
  { destruct H as [-> | ->]; [left | right]; exact Hf. }
  split; [now apply register_falsy | now apply login_falsy].
Qed.

(** ** Registration *)



(** ** Login against a healthy store *)

Lemma users_of_found (d : database) (rows : list user) :
  users_of d = rows ->
  rows <> [] ->
  exists r, find_relation "users" (catalog d) = Some r /\ tuples r = rows.
Proof.
  unfold users_of. intros H Hne.
  destruct (find_relation "users" (catalog d)) as [r |]; [eauto | congruence].
Qed.

(** The SELECT found no row: rejected. *)
Lemma login_not_found (req_body : object) (w : world) (r : relation) (u p : string) :
  status (store w) = Healthy ->
  find_relation "users" (catalog (store w)) = Some r ->
  get req_body "username" = VStr u -> u <> "" ->
  get req_body "password" = VStr p -> p <> "" ->
  filter (fun x => username x =? u) (tuples r) = [] ->
  login req_body w = (Return rejected, set_store w (store w) (SelectUser u)).
Proof.
  intros Hs Hr Hu Hune Hp Hpne Hnone.
  rewrite login_run;
    [| rewrite Hu; now apply truthy_string | rewrite Hp; now apply truthy_string].
  rewrite Hu. simpl prepareValue. rewrite (exec_select_healthy _ _ Hs), Hr, Hnone.
  reflexivity.
Qed.

(** The SELECT found a row: the verdict is bcrypt's on its hash. *)
Lemma login_found
  (req_body : object) (w : world) (r : relation) (u p : string)
  (t : user) (others : list user) :
  status (store w) = Healthy ->
  find_relation "users" (catalog (store w)) = Some r ->
  get req_body "username" = VStr u -> u <> "" ->
  get req_body "password" = VStr p -> p <> "" ->
  filter (fun x => username x =? u) (tuples r) = t :: others ->
  login req_body w =
  (Return (if bcrypt_compare p (password_hash t) then accepted else rejected),
   set_store w (store w) (SelectUser u)).
Proof.
  intros Hs Hr Hu Hune Hp Hpne Hsome.
  rewrite login_run;
    [| rewrite Hu; now apply truthy_string | rewrite Hp; now apply truthy_string].
  rewrite Hu, Hp. simpl prepareValue.
  rewrite (exec_select_healthy _ _ Hs), Hr, Hsome.
  cbn. destruct (bcrypt_compare p (password_hash t)); reflexivity.
Qed.

(** C2, as amended. For every username of at most 50 characters and every
    password, both non-empty: if registering the pair on a store that holds
    no row for that username is answered 201, then logging in with the same
    pair against the resulting world is accepted. *)
Theorem register_then_login_accepts
  (salt : string) (req_body : object) (w w1 : world) (u p : string)
  (resp : response) :
  get req_body "username" = VStr u -> u <> "" ->
  get req_body "password" = VStr p -> p <> "" ->
  (char_length u <= 50)%nat ->
  ~ In u (map username (users_of (store w))) ->
  register salt req_body w = (Return resp, w1) ->
  status_code resp = 201 ->
  exists w2, login req_body w1 = (Return accepted, w2).
Proof.
  intros Hu Hune Hp Hpne Hfit _ Hreg H201.
  assert (Htru : truthy (get req_body "username") = true).
  { rewrite Hu. now apply truthy_string. }
  rewrite (register_run salt req_body w p Htru Hp Hpne) in Hreg.
  rewrite Hu in Hreg. simpl prepareValue in Hreg.
  pose proof (exec_insert_spec u (bcrypt_hash p 10 salt) (store w)) as Hspec.
  destruct (exec (InsertUser u (bcrypt_hash p 10 salt)) (store w))
    as [[rows | e] d].
  - destruct Hspec as [t [_ [Husers [Hcu [Hch [Hfree [_ Hs]]]]]]].
    injection Hreg as <- <-.
    rewrite (coerce_varchar_fits _ _ Hfit) in Hcu. injection Hcu as Hcu.
    rewrite (coerce_varchar_fits _ _ (bcrypt_hash_fits p salt)) in Hch.
    injection Hch as Hch.
    destruct (users_of_found d _ Husers) as [r' [Hr' Htuples]].
    { now destruct (users_of (store w)). }
    eexists.
    rewrite (login_found req_body _ r' u p t []); try assumption.
    + rewrite <- Hch, bcrypt_compare_hash. reflexivity.
    + rewrite Htuples, filter_app. rewrite <- Hcu in Hfree.
      rewrite (filter_none _ _ Hfree). simpl.
      now rewrite <- Hcu, String.eqb_refl.
  - destruct (strict_equal_string (code e) "23505");
      injection Hreg as <- <-; discriminate H201.
Qed.

(** C4, as amended. Against a healthy store: logging in as a registered
    username with a non-empty password that bcrypt.compare does not verify
    against the stored hash, and logging in with a non-empty password as a
    non-empty username that no row holds and that holds no U+0000, are both
    rejected, with one and the same response (401 and the same body). *)
Theorem login_rejections_indistinguishable
  (w : world) (r : relation) (t : user) (wrong unknown guess : string)
  (body_known body_unknown : object) :
  status (store w) = Healthy ->
  find_relation "users" (catalog (store w)) = Some r ->
  well_formed (tuples r) ->
  In t (tuples r) ->
  get body_known "username" = VStr (username t) -> username t <> "" ->
  get body_known "password" = VStr wrong -> wrong <> "" ->
  bcrypt_compare wrong (password_hash t) = false ->
  get body_unknown "username" = VStr unknown -> unknown <> "" ->
  holds_nul unknown = false ->
  ~ In unknown (map username (tuples r)) ->
  get body_unknown "password" = VStr guess -> guess <> "" ->
  fst (login body_known w) = Return rejected /\
  fst (login body_unknown w) = Return rejected /\
  fst (login body_known w) = fst (login body_unknown w).
Proof.
  intros Hs Hr Hwf Hin Hku Hkune Hkp Hkpne Hwrong Huu Huune _ Hfree Hup Hupne.
  assert (Hknown : fst (login body_known w) = Return rejected).
  { rewrite (login_found body_known w r (username t) wrong t []); try assumption.
    - rewrite Hwrong. reflexivity.
    - apply filter_unique; [apply (usernames_unique _ Hwf) | exact Hin]. }
  assert (Hunknown : fst (login body_unknown w) = Return rejected).
  { rewrite (login_not_found body_unknown w r unknown guess); try assumption.
    - reflexivity.
    - apply filter_none, not_in_not_taken, Hfree. }
  repeat split; try assumption. now rewrite Hknown, Hunknown.
Qed.

(** ** What a call does to the store and what it answers *)

(** The three ways through [/api/register]. *)
Lemma register_cases (salt : string) (req_body : object) (w : world) :
  register salt req_body w = (Return bad_request, w) \/
  (exists message,
      register salt req_body w =
      (Return server_error,
       set_console w (console w ++ [ErrorLine "" (BcryptError message)]))) \/
  (exists p,
      truthy (get req_body "username") = true /\
      get req_body "password" = VStr p /\ p <> "").
Proof.
  destruct (truthy (get req_body "username")) eqn:Hu;
    [| left; apply register_falsy; now left].
  destruct (truthy (get req_body "password")) eqn:Hp;
    [| left; apply register_falsy; now right].
  right.
  destruct (get req_body "password") as [| | b | x | p | ms | items | props] eqn:E;
    try (left; apply register_not_string; try assumption;
         try (rewrite E; exact Hp); intros p'; rewrite E; discriminate).
  right. exists p. repeat split; try assumption. now apply truthy_string.
Qed.

(** The response of a registration that reached the store. *)
Lemma register_response (salt : string) (req_body : object) (w : world) (p : string) :
  truthy (get req_body "username") = true ->
  get req_body "password" = VStr p ->
  p <> "" ->
  fst (register salt req_body w) =
  Return
    match fst (exec (InsertUser (prepareValue (get req_body "username"))
                                (bcrypt_hash p 10 salt)) (store w)) with
    | inl rows => created (nth 0 rows VUndefined)
    | inr e => if strict_equal_string (code e) "23505" then conflict
               else server_error
    end.
Proof.
  intros Hu Hp Hne. rewrite (register_run salt req_body w p Hu Hp Hne).
  destruct (exec _ (store w)) as [[rows | e] d]; simpl; [reflexivity |].
  destruct (strict_equal_string (code e) "23505"); reflexivity.
Qed.

(** The rows of [users] after a registration: the same, or one more. *)
Lemma register_users (salt : string) (req_body : object) (w : world) :
  users_of (store (snd (register salt req_body w))) = users_of (store w) \/
  exists p t,
    get req_body "password" = VStr p /\ p <> "" /\
    users_of (store (snd (register salt req_body w))) =
      (users_of (store w) ++ [t])%list /\
    coerce_varchar 50 (prepareValue (get req_body "username")) = Some (username t) /\
    coerce_varchar 100 (bcrypt_hash p 10 salt) = Some (password_hash t) /\
    existsb (fun x => username x =? username t) (users_of (store w)) = false /\
    fst (register salt req_body w) = Return (created (returning_row t)).
Proof.
  destruct (register_cases salt req_body w) as [H | [[m H] | [p [Hu [Hp Hne]]]]];
    try (left; now rewrite H).
  rewrite (register_run salt req_body w p Hu Hp Hne).
  pose proof (exec_insert_spec (prepareValue (get req_body "username"))
                (bcrypt_hash p 10 salt) (store w)) as Hspec.
  destruct (exec _ (store w)) as [[rows | e] d].
  - right. destruct Hspec as [t [Hrows [Husers [Hcu [Hch [Hfree _]]]]]].
    exists p, t. subst rows. repeat split; assumption.
  - left. destruct (strict_equal_string (code e) "23505"); exact Hspec.
Qed.

(** [/api/login] always answers, and never touches the store. *)
Lemma login_answers (req_body : object) (w : world) :
  exists resp w',
    login req_body w = (Return resp, w') /\
    In resp [bad_request; rejected; accepted; server_error] /\
    store w' = store w.
Proof.
  destruct (truthy (get req_body "username")) eqn:Hu;
    [| exists bad_request, w; split;
       [apply login_falsy; now left | split; [now left | reflexivity]]].
  destruct (truthy (get req_body "password")) eqn:Hp;
    [| exists bad_request, w; split;
       [apply login_falsy; now right | split; [now left | reflexivity]]].
  rewrite (login_run req_body w Hu Hp). cbv zeta.
  destruct (fst (exec _ (store w))) as [rows | e].
  - destruct (negb (truthy (nth 0 rows VUndefined))).
    + do 2 eexists. split; [reflexivity |]. split; [| reflexivity]. simpl. tauto.
    + destruct (compare _ _ _) as [[[|] | e] w''];
        do 2 eexists; (split; [reflexivity |]); (split; [| reflexivity]);
        simpl; tauto.
  - do 2 eexists. split; [reflexivity |]. split; [| reflexivity]. simpl. tauto.
Qed.

(** [/api/register] always answers. *)
Lemma register_answers (salt : string) (req_body : object) (w : world) :
  exists resp w',
    register salt req_body w = (Return resp, w') /\
    ((exists user, resp = created user) \/
     In resp [bad_request; conflict; server_error]).
Proof.
  destruct (register_cases salt req_body w) as [H | [[m H] | [p [Hu [Hp Hne]]]]].
  - do 2 eexists. split; [exact H |]. right. simpl. tauto.
  - do 2 eexists. split; [exact H |]. right. simpl. tauto.
  - rewrite (register_run salt req_body w p Hu Hp Hne).
    destruct (exec _ (store w)) as [[rows | e] d].
    + do 2 eexists. split; [reflexivity |]. left. eexists. reflexivity.
    + destruct (strict_equal_string (code e) "23505");
        do 2 eexists; (split; [reflexivity |]); right; simpl; tauto.
Qed.

(** The password hash of an INSERT does not show in its outcome, as long
    as it fits its column. *)
Lemma exec_insert_hash_irrelevant (u h h' : string) (d : database) :
  (char_length h <= 100)%nat ->
  (char_length h' <= 100)%nat ->
  fst (exec (InsertUser u h) d) = fst (exec (InsertUser u h') d).
Proof.
  intros Hh Hh'. unfold exec. destruct (status d); try reflexivity.
  unfold insert_user.
  destruct (find_relation "users" (catalog d)) as [r |]; [| reflexivity].
  rewrite (coerce_varchar_fits _ _ Hh), (coerce_varchar_fits _ _ Hh').
  destruct (coerce_varchar 50 u) as [u' |]; [| reflexivity].
  destruct (taken u' r); reflexivity.
Qed.


(** A username no row holds, short enough for its column, registers. *)
Lemma register_fresh
  (salt : string) (req_body : object) (w : world) (r : relation) (u p : string) :
  status (store w) = Healthy ->
  find_relation "users" (catalog (store w)) = Some r ->
  ~ In u (map username (tuples r)) ->
  get req_body "username" = VStr u -> u <> "" ->
  (char_length u <= 50)%nat ->
  get req_body "password" = VStr p -> p <> "" ->
  fst (register salt req_body w) =
  Return (created (VObj [("id", VNum (number_of_Z (last_value r + 1)));
                         ("username", VStr u)])).
Proof.
  intros Hs Hr Hfree Hu Hune Hfit Hp Hpne.
  assert (Htru : truthy (get req_body "username") = true).
  { rewrite Hu. now apply truthy_string. }
  rewrite (register_response salt req_body w p Htru Hp Hpne).
  rewrite Hu. simpl prepareValue. unfold exec. rewrite Hs. unfold insert_user.
  rewrite Hr, (coerce_varchar_fits _ _ Hfit),
    (coerce_varchar_fits _ _ (bcrypt_hash_fits p salt)).
  unfold taken. rewrite (not_in_not_taken _ _ Hfree). reflexivity.
Qed.

(** C8. A registration answered 201 carries, besides its message, exactly
    the id and the username of the row it has just appended to [users];
    every other answer of [/api/register] is one of three fixed responses;
    the answer of [/api/register] is the same whatever the password and
    whatever the salt, so it shows neither the password nor its hash; and
    every answer of [/api/login] is one of four fixed responses. *)
Theorem responses_carry_no_secret :
  (forall salt req_body w resp w',
      register salt req_body w = (Return resp, w') ->
      status_code resp = 201 ->
      exists t,
        users_of (store w') = (users_of (store w) ++ [t])%list /\
        resp = created (VObj [("id", VNum (number_of_Z (id t)));
                              ("username", VStr (username t))])) /\
  (forall salt req_body w,
      exists resp w',
        register salt req_body w = (Return resp, w') /\
        (status_code resp = 201 \/
         In resp [bad_request; conflict; server_error])) /\
  (forall salt salt' req_body req_body' w p p',
      get req_body "username" = get req_body' "username" ->
      get req_body "password" = VStr p -> p <> "" ->
      get req_body' "password" = VStr p' -> p' <> "" ->
      fst (register salt req_body w) = fst (register salt' req_body' w)) /\
  (forall req_body w,
      exists resp w',
        login req_body w = (Return resp, w') /\
        In resp [bad_request; rejected; accepted; server_error]).
Proof.
  repeat split.
  - intros salt req_body w resp w' Hreg H201.
    destruct (register_cases salt req_body w) as [H | [[m H] | [p [Hu [Hp Hne]]]]].
    + rewrite H in Hreg. injection Hreg as <- <-. discriminate H201.
    + rewrite H in Hreg. injection Hreg as <- <-. discriminate H201.
    + rewrite (register_run salt req_body w p Hu Hp Hne) in Hreg.
      pose proof (exec_insert_spec (prepareValue (get req_body "username"))
                    (bcrypt_hash p 10 salt) (store w)) as Hspec.
      destruct (exec _ (store w)) as [[rows | e] d].
      * destruct Hspec as [t [Hrows [Husers _]]]. exists t.
        injection Hreg as <- <-. subst rows. split; [exact Husers | reflexivity].
      * destruct (strict_equal_string (code e) "23505");
          injection Hreg as <- <-; discriminate H201.
  - intros salt req_body w.
    destruct (register_answers salt req_body w) as [resp [w' [H [[user ->] | Hin]]]];
      do 2 eexists; (split; [exact H |]); [left; reflexivity | right; exact Hin].
  - intros salt salt' req_body req_body' w p p' Hsame Hp Hne Hp' Hne'.
    destruct (truthy (get req_body "username")) eqn:Hu.
    + rewrite (register_response salt req_body w p Hu Hp Hne).
      rewrite Hsame in Hu.
      rewrite (register_response salt' req_body' w p' Hu Hp' Hne').
      rewrite Hsame.
      now rewrite (exec_insert_hash_irrelevant _ _ (bcrypt_hash p' 10 salt') _
                     (bcrypt_hash_fits p salt) (bcrypt_hash_fits p' salt')).
    + rewrite (register_falsy salt req_body w) by now left.
      rewrite Hsame in Hu.
      now rewrite (register_falsy salt' req_body' w) by now left.
  - intros req_body w.
    destruct (login_answers req_body w) as [resp [w' [H [Hin _]]]]. eauto.
Qed.

(** C9, as amended. A call to [/api/register] whose username and password
    pass the presence check, the password being a string, hands exactly
    one statement to the store, the INSERT; a call to [/api/login] whose
    fields pass the presence check hands it exactly one, the SELECT; a call
    to either that fails the presence check hands it none, and neither does
    a registration whose password is not a string; and whatever the body
    and the world, the store after [/api/login] is the store before. *)
Theorem store_traffic_of_a_call (salt : string) (req_body : object) (w : world) :
  (truthy (get req_body "username") = true ->
   forall p, get req_body "password" = VStr p -> p <> "" ->
   issued (snd (register salt req_body w)) =
     (issued w ++ [InsertUser (prepareValue (get req_body "username"))
                              (bcrypt_hash p 10 salt)])%list) /\
  (truthy (get req_body "username") = true ->
   truthy (get req_body "password") = true ->
   issued (snd (login req_body w)) =
     (issued w ++ [SelectUser (prepareValue (get req_body "username"))])%list) /\
  (truthy (get req_body "username") = false \/
   truthy (get req_body "password") = false ->
   issued (snd (register salt req_body w)) = issued w /\
   issued (snd (login req_body w)) = issued w) /\
  (truthy (get req_body "username") = true ->
   truthy (get req_body "password") = true ->
   (forall p, get req_body "password" <> VStr p) ->
   issued (snd (register salt req_body w)) = issued w) /\
  store (snd (login req_body w)) = store w.
Proof.
  repeat split.
  - intros Hu p Hp Hne. rewrite (register_run salt req_body w p Hu Hp Hne).
    destruct (exec _ (store w)) as [[rows | e] d]; [reflexivity |].
    destruct (strict_equal_string (code e) "23505"); reflexivity.
  - intros Hu Hp. rewrite (login_run req_body w Hu Hp). cbv zeta.
    destruct (fst (exec _ (store w))) as [rows | e]; [| reflexivity].
    destruct (negb (truthy (nth 0 rows VUndefined))); [reflexivity |].
    destruct (compare _ _ _) as [[[|] | e] w'']; reflexivity.
  - now rewrite (register_falsy salt req_body w H).
  - now rewrite (login_falsy req_body w H).
  - intros Hu Hp Hns.
    destruct (register_not_string salt req_body w Hu Hp Hns) as [m H].
    now rewrite H.
  - destruct (login_answers req_body w) as [resp [w' [H [_ Hstore]]]].
    now rewrite H.
Qed.


(** ** Schema initialisation and start-up *)

Lemma initializeDatabase_run (w : world) :
  initializeDatabase w =
  match status (store w) with
  | Healthy =>
      (Return tt,
       {| store := with_catalog (store w) (create_users (catalog (store w)));
          issued := issued w ++ [CreateUsers];
          console := console w ++ [LogLine schema_ready];
          checked_out := checked_out w; listening := listening w;
          strict_rejections := strict_rejections w;
          rejections := rejections w |})
  | Unreachable => (Throw ConnError, w)
  | Failing sqlstate =>
      (Return tt,
       {| store := store w;
          issued := issued w ++ [CreateUsers];
          console := console w ++ [ErrorLine "数据库初始化失败:" (PgError sqlstate)];
          checked_out := checked_out w; listening := listening w;
          strict_rejections := strict_rejections w;
          rejections := rejections w |})
  end.
Proof.
  unfold initializeDatabase, bind, pool_connect, try_finally, try_catch,
    client_query, send, exec.
  destruct (status (store w)) eqn:Hs; simpl; rewrite ?Hs; reflexivity.
Qed.

Lemma find_relation_app_none (name : string) (cat cat' : list relation) :
  existsb (named name) cat = false ->
  find_relation name (cat ++ cat') = find_relation name cat'.
Proof.
  unfold find_relation. induction cat as [| x cat IH]; simpl; [reflexivity |].
  intro H. apply orb_false_iff in H as [Hx Hrest]. rewrite Hx. auto.
Qed.

Lemma users_of_create (d : database) :
  users_of (with_catalog d (create_users (catalog d))) = users_of d.
Proof.
  unfold users_of, create_users. simpl.
  destruct (existsb (named "users") (catalog d)) eqn:Hx; [reflexivity |].
  rewrite (find_relation_app_none _ _ _ Hx).
  pose proof (find_relation_app_none "users" (catalog d) [] Hx) as Hnone.
  rewrite app_nil_r in Hnone. rewrite Hnone. reflexivity.
Qed.

Lemma initializeDatabase_users (w : world) :
  users_of (store (snd (initializeDatabase w))) = users_of (store w).
Proof.
  rewrite initializeDatabase_run.
  destruct (status (store w)); simpl; try reflexivity. apply users_of_create.
Qed.

Lemma app_listen_users (port : string) (w : world) :
  users_of (store (app_listen port w)) = users_of (store w).
Proof.
  unfold app_listen, bind, console_log.
  match goal with |- context [initializeDatabase ?x] =>
    pose proof (initializeDatabase_users x) as H;
    destruct (initializeDatabase x) as [[[] | e] w2]
  end; simpl in H.
  - exact H.
  - simpl. destruct (strict_rejections w2); simpl; exact H.
Qed.

(** ** Runs: what a step does to the rows *)

Lemma step_users (e : event) (w : world) :
  users_of (store (step e w)) = users_of (store w) \/
  exists salt req_body p t,
    e = Arrives salt (PostRegister req_body) /\
    get req_body "password" = VStr p /\
    users_of (store (step e w)) = (users_of (store w) ++ [t])%list /\
    coerce_varchar 50 (prepareValue (get req_body "username")) = Some (username t) /\
    coerce_varchar 100 (bcrypt_hash p 10 salt) = Some (password_hash t) /\
    existsb (fun x => username x =? username t) (users_of (store w)) = false.
Proof.
  destruct e as [port | salt [req_body | req_body] | h now]; simpl.
  - left. apply app_listen_users.
  - unfold serve. destruct (listening w); [| now left]. simpl.
    destruct (register_users salt req_body w)
      as [H | [p [t [Hp [_ [Husers [Hcu [Hch [Hfree _]]]]]]]]].
    + left. destruct (register salt req_body w) as [[resp | err] w']; auto.
    + destruct (register salt req_body w) as [[resp | err] w'] eqn:E.
      * right. exists salt, req_body, p, t. repeat split; assumption.
      * destruct (register_answers salt req_body w) as [resp [w'' [H _]]].
        congruence.
  - left. unfold serve. destruct (listening w); [| reflexivity]. simpl.
    destruct (login_answers req_body w) as [resp [w' [H [_ Hstore]]]].
    rewrite H. now rewrite Hstore.
  - left. reflexivity.
Qed.

Lemma registered_in_more (seen more : list event) (t : user) :
  registered_in seen t -> registered_in (seen ++ more) t.
Proof.
  intros [salt [req_body [p [Hin H]]]]. exists salt, req_body, p.
  split; [apply in_or_app; now left | exact H].
Qed.

(** Every row of [users] comes from a registration request of the run and
    holds the digest of the password that request carried. *)
Lemma run_provenance (events : list event) :
  forall (w : world) (seen : list event),
    (forall t, In t (users_of (store w)) -> registered_in seen t) ->
    forall t, In t (users_of (store (run events w))) ->
              registered_in (seen ++ events) t.
Proof.
  induction events as [| e events IH]; intros w seen Hseen t Ht.
  - rewrite app_nil_r. now apply Hseen.
  - change (run (e :: events) w) with (run events (step e w)) in Ht.
    replace (seen ++ e :: events)%list with ((seen ++ [e]) ++ events)%list
      by (rewrite <- app_assoc; reflexivity).
    apply (IH (step e w)); [| exact Ht].
    intros t' Ht'.
    destruct (step_users e w)
      as [H | [salt [req_body [p [t0 [-> [Hp [Husers [_ [Hch _]]]]]]]]]].
    + rewrite H in Ht'. now apply registered_in_more, Hseen.
    + rewrite Husers in Ht'. apply in_app_or in Ht' as [Hold | [<- | []]].
      * now apply registered_in_more, Hseen.
      * exists salt, req_body, p. split; [| split; [exact Hp |]].
        -- apply in_or_app. right. now left.
        -- rewrite (coerce_varchar_fits _ _ (bcrypt_hash_fits p salt)) in Hch.
           now injection Hch.
Qed.

(** C5. In every run that starts from a store without users, each row of
    [users] was stored by a registration request of the run, and its
    password_hash is the bcrypt digest of the password that request
    supplied: it is not empty and it is not that password. *)
Theorem stored_hash_is_not_the_password (events : list event) (w : world) (t : user) :
  users_of (store w) = [] ->
  In t (users_of (store (run events w))) ->
  exists salt req_body p,
    In (Arrives salt (PostRegister req_body)) events /\
    get req_body "password" = VStr p /\
    password_hash t = bcrypt_hash p 10 salt /\
    password_hash t <> "" /\
    password_hash t <> p.
Proof.
  intros Hempty Ht.
  destruct (run_provenance events w [] ) with (t := t)
    as [salt [req_body [p [Hin [Hp Hhash]]]]].
  - rewrite Hempty. intros t' [].
  - exact Ht.
  - exists salt, req_body, p. simpl in Hin. repeat split; try assumption.
    + intro Habs. pose proof (bcrypt_hash_length p salt) as Hlen.
      rewrite <- Hhash, Habs in Hlen. discriminate Hlen.
    + rewrite Hhash. apply bcrypt_hash_differs.
Qed.


Lemma count_users_exists (cat : list relation) :
  (1 <= count_users cat)%nat -> existsb (named "users") cat = true.
Proof.
  intro H. destruct (existsb (named "users") cat) eqn:Hx; [reflexivity |].
  rewrite (count_users_none _ Hx) in H. lia.
Qed.

Lemma with_catalog_same (d : database) : with_catalog d (catalog d) = d.
Proof. now destruct d. Qed.

(** C7. Against a healthy store with at most one [users] relation,
    [initializeDatabase] returns without error, and so does a second call
    right after it; after each of them the catalog holds exactly one
    [users] relation; the second call leaves the store as the first one
    left it, and the first one leaves a store that already had the relation
    untouched; nothing but the two success lines is logged and the client
    is back in the pool. *)
Theorem initializeDatabase_idempotent (w : world) :
  status (store w) = Healthy ->
  (count_users (catalog (store w)) <= 1)%nat ->
  exists w1 w2,
    initializeDatabase w = (Return tt, w1) /\
    initializeDatabase w1 = (Return tt, w2) /\
    count_users (catalog (store w1)) = 1%nat /\
    count_users (catalog (store w2)) = 1%nat /\
    store w2 = store w1 /\
    (count_users (catalog (store w)) = 1%nat -> store w1 = store w) /\
    console w2 = (console w ++ [LogLine schema_ready; LogLine schema_ready])%list /\
    checked_out w2 = checked_out w.
Proof.
  intros Hs Hcount. rewrite initializeDatabase_run, Hs.
  eexists. eexists. split; [reflexivity |].
  rewrite initializeDatabase_run. simpl. rewrite Hs.
  split; [reflexivity |]. simpl.
  rewrite create_users_idempotent.
  repeat split.
  - now apply count_users_create.
  - now apply count_users_create.
  - intro H1. unfold create_users.
    rewrite count_users_exists by lia. apply with_catalog_same.
  - now rewrite <- app_assoc.
Qed.

(** A listening server answers every request. *)
Lemma serve_listening (salt : string) (req : request) (w : world) :
  listening w = true ->
  exists resp w', serve salt req w = Some (resp, w').
Proof.
  intro Hl. unfold serve. rewrite Hl.
  destruct req as [req_body | req_body]; simpl.
  - destruct (register_answers salt req_body w) as [resp [w' [H _]]].
    rewrite H. eauto.
  - destruct (login_answers req_body w) as [resp [w' [H _]]].
    rewrite H. eauto.
Qed.

Lemma app_listen_failing (port : string) (w : world) (sqlstate : string) :
  status (store w) = Failing sqlstate ->
  app_listen port w =
  {| store := store w;
     issued := issued w ++ [CreateUsers];
     console := (console w ++
                 [LogLine ("服务器正在端口 " ++ port ++ " 上运行...")]) ++
                [ErrorLine "数据库初始化失败:" (PgError sqlstate)];
     checked_out := checked_out w; listening := true;
     strict_rejections := strict_rejections w;
     rejections := rejections w |}.
Proof.
  intro Hs. unfold app_listen, bind, console_log.
  rewrite initializeDatabase_run. simpl. rewrite Hs. reflexivity.
Qed.

(** C1, as amended. When the store refuses the CREATE TABLE statement,
    [initializeDatabase] catches the error and logs it, gives its client
    back and rejects nothing; the server, which listened before the
    statement was sent, still listens, and every registration or login
    request that arrives afterwards is served a response. *)
Theorem failed_schema_is_logged_not_fatal
  (port : string) (w : world) (sqlstate : string) :
  status (store w) = Failing sqlstate ->
  listening (app_listen port w) = true /\
  In (ErrorLine "数据库初始化失败:" (PgError sqlstate))
     (console (app_listen port w)) /\
  checked_out (app_listen port w) = checked_out w /\
  rejections (app_listen port w) = rejections w /\
  forall salt req,
    exists resp w', serve salt req (app_listen port w) = Some (resp, w').
Proof.
  intro Hs. rewrite (app_listen_failing port w sqlstate Hs).
  repeat split.
  - simpl. apply in_or_app. right. now left.
  - intros salt req. now apply serve_listening.
Qed.

(** ** The constraints are an invariant of every run *)

Lemma step_well_formed (e : event) (w : world) :
  well_formed (users_of (store w)) ->
  well_formed (users_of (store (step e w))).
Proof.
  intros [Hfit Huniq].
  destruct (step_users e w)
    as [-> | [salt [req_body [p [t [_ [_ [-> [Hcu [_ Hfree]]]]]]]]]];
    [now split |].
  split.
  - apply Forall_app. split; [exact Hfit |].
    constructor; [| constructor].
    now apply (coerce_varchar_sound 49) in Hcu as [Hlen _].
  - rewrite map_app. apply NoDup_app; [exact Huniq | |].
    + simpl. constructor; [intros [] | constructor].
    + intros a Ha [<- | []].
      apply in_map_iff in Ha as [x [Heq Hx]].
      assert (Htaken : existsb (fun y => username y =? username t)
                         (users_of (store w)) = true).
      { apply existsb_exists. exists x. split; [exact Hx |].
        now apply String.eqb_eq. }
      congruence.
Qed.

(** X9. Along every run, whatever requests arrive and however the store's
    health changes, the usernames held by [users] stay pairwise distinct
    and at most 50 characters long. *)
Lemma run_well_formed (events : list event) :
  forall w, well_formed (users_of (store w)) ->
            well_formed (users_of (store (run events w))).
Proof.
  induction events as [| e events IH]; intros w Hwf; [exact Hwf |].
  apply (IH (step e w)), step_well_formed, Hwf.
Qed.


(** * Further properties of the routes *)

(** The response of a login that passed the presence check, as a function
    of what the SELECT returned. *)
Lemma login_response (req_body : object) (w : world) :
  truthy (get req_body "username") = true ->
  truthy (get req_body "password") = true ->
  fst (login req_body w) =
  Return
    match fst (exec (SelectUser (prepareValue (get req_body "username"))) (store w)) with
    | inl rows =>
        let user := nth 0 rows VUndefined in
        if negb (truthy user) then rejected
        else
          match get req_body "password", get_prop user "password_hash" with
          | VStr s, VStr h => if bcrypt_compare s h then accepted else rejected
          | _, _ => server_error
          end
    | inr e => server_error
    end.
Proof.
  intros Hu Hp. rewrite (login_run req_body w Hu Hp). cbv zeta.
  destruct (fst (exec _ (store w))) as [rows | e]; [| reflexivity].
  destruct (negb (truthy (nth 0 rows VUndefined))); [reflexivity |].
  unfold compare.
  destruct (get req_body "password"); try reflexivity.
  destruct (get_prop (nth 0 rows VUndefined) "password_hash"); try reflexivity.
  unfold ret. destruct (bcrypt_compare s s0); reflexivity.
Qed.

(** The store after a registration: untouched, or what the INSERT left. *)
Lemma register_store (salt : string) (req_body : object) (w : world) :
  store (snd (register salt req_body w)) = store w \/
  exists p,
    get req_body "password" = VStr p /\
    store (snd (register salt req_body w)) =
    snd (exec (InsertUser (prepareValue (get req_body "username"))
                          (bcrypt_hash p 10 salt)) (store w)).
Proof.
  destruct (register_cases salt req_body w) as [H | [[m H] | [p [Hu [Hp Hne]]]]];
    try (left; now rewrite H).
  right. exists p. split; [exact Hp |].
  rewrite (register_run salt req_body w p Hu Hp Hne).
  destruct (exec _ (store w)) as [[rows | e] d]; [reflexivity |].
  destruct (strict_equal_string (code e) "23505"); reflexivity.
Qed.

(** X1. While the store cannot be reached, or refuses statements with an
    SQLSTATE other than 23505, a registration and a login that pass the
    presence check are both answered with the same fixed 500 response; the
    error is written to the console and the store is left as it was. *)
Theorem store_outage_is_answered_500
  (salt : string) (req_body : object) (w : world) (p : string) (e : error) :
  truthy (get req_body "username") = true ->
  get req_body "password" = VStr p -> p <> "" ->
  (status (store w) = Unreachable /\ e = ConnError) \/
  (exists sqlstate,
      status (store w) = Failing sqlstate /\ sqlstate <> "23505" /\
      e = PgError sqlstate) ->
  (fst (register salt req_body w) = Return server_error /\
   console (snd (register salt req_body w)) = (console w ++ [ErrorLine "" e])%list /\
   store (snd (register salt req_body w)) = store w) /\
  (fst (login req_body w) = Return server_error /\
   console (snd (login req_body w)) = (console w ++ [ErrorLine "" e])%list /\
   store (snd (login req_body w)) = store w).
Proof.
  intros Hu Hp Hne Hout.
  assert (Htp : truthy (get req_body "password") = true).
  { rewrite Hp. now apply truthy_string. }
  rewrite (register_run salt req_body w p Hu Hp Hne).
  rewrite (login_run req_body w Hu Htp). cbv zeta. unfold exec.
  destruct Hout as [[Hs ->] | [sqlstate [Hs [Hcode ->]]]]; rewrite Hs.
  - repeat split.
  - simpl. apply String.eqb_neq in Hcode. rewrite Hcode. repeat split.
Qed.

(** X2. A username of more than 50 characters that holds no U+0000 and
    whose excess is not made of spaces only does not register: the INSERT
    is refused (22001), the answer is the 500 response, the refusal is
    logged and the store, rows and sequence, is left as it was. *)
Theorem overlong_username_is_refused
  (salt : string) (req_body : object) (w : world) (r : relation) (u p : string) :
  status (store w) = Healthy ->
  find_relation "users" (catalog (store w)) = Some r ->
  get req_body "username" = VStr u ->
  holds_nul u = false ->
  (50 < char_length u)%nat ->
  all_spaces (excess 50 u) = false ->
  get req_body "password" = VStr p -> p <> "" ->
  fst (register salt req_body w) = Return server_error /\
  console (snd (register salt req_body w)) =
    (console w ++ [ErrorLine "" (PgError "22001")])%list /\
  store (snd (register salt req_body w)) = store w.
Proof.
  intros Hs Hr Hu _ Hlong Hexcess Hp Hne.
  assert (Htru : truthy (get req_body "username") = true).
  { rewrite Hu. apply truthy_string. intros ->. simpl in Hlong. lia. }
  assert (Hexec : exec (InsertUser u (bcrypt_hash p 10 salt)) (store w) =
                  (inr (PgError "22001"), store w)).
  { unfold exec. rewrite Hs. unfold insert_user. rewrite Hr.
    unfold coerce_varchar at 1.
    destruct (Nat.leb_spec (char_length u) 50) as [Hle | _]; [lia |].
    now rewrite Hexcess. }
  rewrite (register_run salt req_body w p Htru Hp Hne).
  rewrite Hu. simpl prepareValue. rewrite Hexec.
  simpl strict_equal_string. cbv iota.
  repeat split.
Qed.

(** X3. Neither route creates the table: against a store that answers but
    has no [users] relation, a registration and a login that pass the
    presence check are both answered 500, the missing table (42P01) is
    logged, and the catalog stays as it was. *)
Theorem missing_table_is_answered_500
  (salt : string) (req_body : object) (w : world) (p : string) :
  status (store w) = Healthy ->
  find_relation "users" (catalog (store w)) = None ->
  truthy (get req_body "username") = true ->
  get req_body "password" = VStr p -> p <> "" ->
  (fst (register salt req_body w) = Return server_error /\
   console (snd (register salt req_body w)) =
     (console w ++ [ErrorLine "" (PgError "42P01")])%list /\
   store (snd (register salt req_body w)) = store w) /\
  (fst (login req_body w) = Return server_error /\
   console (snd (login req_body w)) =
     (console w ++ [ErrorLine "" (PgError "42P01")])%list /\
   store (snd (login req_body w)) = store w).
Proof.
  intros Hs Hnone Hu Hp Hne.
  assert (Htp : truthy (get req_body "password") = true).
  { rewrite Hp. now apply truthy_string. }
  rewrite (register_run salt req_body w p Hu Hp Hne).
  rewrite (login_run req_body w Hu Htp). cbv zeta.
  unfold exec. rewrite Hs. unfold insert_user, select_user. rewrite Hnone.
  simpl. repeat split.
Qed.


(** X4. A password that is present but not a string makes the two login
    outcomes differ: for a username that no row holds and that holds no
    U+0000 the answer is the 401 rejection (bcrypt.compare is never
    reached), for a registered username bcrypt.compare throws and the
    answer is the 500 response. *)
Theorem non_string_password_tells_usernames_apart
  (w : world) (r : relation) (t : user) (unknown : string) (v : value)
  (body_known body_unknown : object) :
  status (store w) = Healthy ->
  find_relation "users" (catalog (store w)) = Some r ->
  well_formed (tuples r) ->
  In t (tuples r) ->
  truthy v = true ->
  (forall p, v <> VStr p) ->
  get body_known "username" = VStr (username t) -> username t <> "" ->
  get body_known "password" = v ->
  get body_unknown "username" = VStr unknown -> unknown <> "" ->
  holds_nul unknown = false ->
  ~ In unknown (map username (tuples r)) ->
  get body_unknown "password" = v ->
  fst (login body_known w) = Return server_error /\
  fst (login body_unknown w) = Return rejected.
Proof.
  intros Hs Hr Hwf Hin Hv Hns Hku Hkne Hkp Huu Hune _ Hfree Hup.
  split.
  - rewrite login_response;
      [| rewrite Hku; now apply truthy_string | now rewrite Hkp].
    rewrite Hku, Hkp. simpl prepareValue.
    rewrite (exec_select_healthy _ _ Hs), Hr.
    rewrite (filter_unique _ _ (usernames_unique _ Hwf) Hin). cbn.
    destruct v; try reflexivity. exfalso. now apply (Hns s).
  - rewrite login_response;
      [| rewrite Huu; now apply truthy_string | now rewrite Hup].
    rewrite Huu. simpl prepareValue.
    rewrite (exec_select_healthy _ _ Hs), Hr.
    now rewrite (filter_none _ _ (not_in_not_taken _ _ Hfree)).
Qed.

(** X5. A login is accepted only for a stored row: whenever the answer is
    the 200 response, the password of the body is a non-empty string, the
    store answered, and [users] holds a row whose username is the one sent
    and against whose hash bcrypt.compare verified that password. *)
Theorem accepted_login_has_a_verified_row (req_body : object) (w : world) :
  fst (login req_body w) = Return accepted ->
  exists p t,
    get req_body "password" = VStr p /\ p <> "" /\
    status (store w) = Healthy /\
    In t (users_of (store w)) /\
    username t = prepareValue (get req_body "username") /\
    bcrypt_compare p (password_hash t) = true.
Proof.
  intro H.
  destruct (truthy (get req_body "username")) eqn:Hu;
    [| rewrite login_falsy in H by (now left); discriminate H].
  destruct (truthy (get req_body "password")) eqn:Hp;
    [| rewrite login_falsy in H by (now right); discriminate H].
  rewrite (login_response req_body w Hu Hp) in H. unfold exec in H.
  destruct (status (store w)) eqn:Hs; try discriminate H.
  simpl fst in H. unfold select_user in H. unfold users_of.
  destruct (find_relation "users" (catalog (store w))) as [r |];
    [| discriminate H].
  destruct (filter (fun x => username x =? prepareValue (get req_body "username"))
              (tuples r)) as [| t others] eqn:Hf; [discriminate H |].
  cbn in H.
  destruct (get req_body "password") as [| | | | p | | |] eqn:E; try discriminate H.
  destruct (bcrypt_compare p (password_hash t)) eqn:Hc; [| discriminate H].
  assert (Hin : In t (filter (fun x => username x =? prepareValue (get req_body "username"))
                        (tuples r))) by (rewrite Hf; now left).
  apply filter_In in Hin as [Hin Heq]. apply String.eqb_eq in Heq.
  exists p, t. repeat split; try assumption; try reflexivity.
  now apply truthy_string.
Qed.

(** X6. Both routes write to the console exactly when they answer 500:
    a 500 adds one error line, any other answer leaves the console as it
    was; and no call ends in an exception. *)
Theorem console_grows_exactly_on_500 (salt : string) (req_body : object) (w : world) :
  (exists resp w',
      register salt req_body w = (Return resp, w') /\
      (status_code resp = 500 ->
       exists e, console w' = (console w ++ [ErrorLine "" e])%list) /\
      (status_code resp <> 500 -> console w' = console w)) /\
  (exists resp w',
      login req_body w = (Return resp, w') /\
      (status_code resp = 500 ->
       exists e, console w' = (console w ++ [ErrorLine "" e])%list) /\
      (status_code resp <> 500 -> console w' = console w)).
Proof.
  assert (Hleaf : forall (resp : response) (w' : world),
             (status_code resp = 500 /\
              exists e, console w' = (console w ++ [ErrorLine "" e])%list) \/
             (status_code resp <> 500 /\ console w' = console w) ->
             (status_code resp = 500 ->
              exists e, console w' = (console w ++ [ErrorLine "" e])%list) /\
             (status_code resp <> 500 -> console w' = console w)).
  { intros resp w' [[H500 He] | [Hn Hc]]; split; intro H; try assumption;
      contradiction. }
  split.
  - destruct (register_cases salt req_body w) as [H | [[m H] | [p [Hu [Hp Hne]]]]].
    + rewrite H. do 2 eexists. split; [reflexivity |]. apply Hleaf.
      right. split; [discriminate | reflexivity].
    + rewrite H. do 2 eexists. split; [reflexivity |]. apply Hleaf.
      left. split; [reflexivity | eexists; reflexivity].
    + rewrite (register_run salt req_body w p Hu Hp Hne).
      destruct (exec _ (store w)) as [[rows | e] d].
      * do 2 eexists. split; [reflexivity |]. apply Hleaf.
        right. split; [discriminate | reflexivity].
      * destruct (strict_equal_string (code e) "23505");
          do 2 eexists; (split; [reflexivity |]); apply Hleaf.
        -- right. split; [discriminate | reflexivity].
        -- left. split; [reflexivity | eexists; reflexivity].
  - destruct (truthy (get req_body "username")) eqn:Hu;
      [| rewrite login_falsy by (now left); do 2 eexists;
         split; [reflexivity |]; apply Hleaf; right;
         split; [discriminate | reflexivity]].
    destruct (truthy (get req_body "password")) eqn:Hp;
      [| rewrite login_falsy by (now right); do 2 eexists;
         split; [reflexivity |]; apply Hleaf; right;
         split; [discriminate | reflexivity]].
    rewrite (login_run req_body w Hu Hp). cbv zeta.
    destruct (fst (exec _ (store w))) as [rows | e].
    + destruct (negb (truthy (nth 0 rows VUndefined))).
      * do 2 eexists. split; [reflexivity |]. apply Hleaf.
        right. split; [discriminate | reflexivity].
      * destruct (compare _ _ _) as [[[|] | e] w''];
          do 2 eexists; (split; [reflexivity |]); apply Hleaf.
        -- right. split; [discriminate | reflexivity].
        -- right. split; [discriminate | reflexivity].
        -- left. split; [reflexivity | eexists; reflexivity].
    + do 2 eexists. split; [reflexivity |]. apply Hleaf.
      left. split; [reflexivity | eexists; reflexivity].
Qed.

(** X7. [initializeDatabase] gives back every client it takes: whether the
    store answers, refuses the statement or cannot be reached, the number of
    clients out of the pool is the same after the call, and after the whole
    start-up, as before. *)
Theorem initializeDatabase_leaks_no_client (port : string) (w : world) :
  checked_out (snd (initializeDatabase w)) = checked_out w /\
  checked_out (app_listen port w) = checked_out w.
Proof.
  split.
  - rewrite initializeDatabase_run. destruct (status (store w)); reflexivity.
  - unfold app_listen, bind, console_log. rewrite initializeDatabase_run. simpl.
    destruct (status (store w)); simpl; try reflexivity.
    destruct (strict_rejections w); reflexivity.
Qed.

(** X8. When the store cannot be reached at start-up, the rejection of
    [pool.connect()] escapes [initializeDatabase] (it is outside the try):
    no statement is sent and no failure line is logged, only the port line;
    the rejection is left unhandled, and the server keeps listening exactly
    when the runtime does not end the process on unhandled rejections. *)
Theorem unreachable_store_at_startup (port : string) (w : world) :
  status (store w) = Unreachable ->
  initializeDatabase w = (Throw ConnError, w) /\
  rejections (app_listen port w) = (rejections w ++ [ConnError])%list /\
  issued (app_listen port w) = issued w /\
  console (app_listen port w) =
    (console w ++ [LogLine ("服务器正在端口 " ++ port ++ " 上运行...")])%list /\
  listening (app_listen port w) = negb (strict_rejections w).
Proof.
  intro Hs. split.
  - rewrite initializeDatabase_run. now rewrite Hs.
  - unfold app_listen, bind, console_log. rewrite initializeDatabase_run. simpl.
    rewrite Hs. simpl. destruct (strict_rejections w); repeat split.
Qed.


(** * Further invariants of runs *)

Lemma app_listen_store (port : string) (w : world) :
  store (app_listen port w) = snd (exec CreateUsers (store w)).
Proof.
  unfold app_listen, bind, console_log. rewrite initializeDatabase_run. simpl.
  unfold exec. destruct (status (store w)); simpl; try reflexivity.
  destruct (strict_rejections w); reflexivity.
Qed.

(** The catalog after a step is the catalog before it, or the one some
    statement left. *)
Lemma step_catalog (e : event) (w : world) :
  catalog (store (step e w)) = catalog (store w) \/
  exists q, catalog (store (step e w)) = catalog (snd (exec q (store w))).
Proof.
  destruct e as [port | salt [req_body | req_body] | h now]; simpl.
  - right. exists CreateUsers. now rewrite app_listen_store.
  - unfold serve. destruct (listening w); [| now left]. simpl.
    destruct (register_store salt req_body w) as [H | [p [_ H]]];
      destruct (register salt req_body w) as [[resp | err] w']; simpl in H;
      try (now left); try (left; now rewrite H).
    right. eexists. now rewrite H.
  - left. unfold serve. destruct (listening w); [| reflexivity]. simpl.
    destruct (login_answers req_body w) as [resp [w' [H [_ Hstore]]]].
    rewrite H. now rewrite Hstore.
  - now left.
Qed.

(** What every statement preserves on the catalog, every run preserves. *)
Lemma run_catalog_invariant (P : list relation -> Prop) :
  (forall q d, P (catalog d) -> P (catalog (snd (exec q d)))) ->
  forall events w, P (catalog (store w)) -> P (catalog (store (run events w))).
Proof.
  intros Hexec events. induction events as [| e events IH]; intros w HP;
    [exact HP |].
  apply (IH (step e w)).
  destruct (step_catalog e w) as [-> | [q ->]]; [exact HP | now apply Hexec].
Qed.

(** How a statement changes the [users] relation: not at all, by creating
    it empty, by consuming a sequence value, or by appending a row that
    takes the next sequence value. *)
Lemma exec_relation (q : statement) (d : database) :
  find_relation "users" (catalog (snd (exec q d))) = find_relation "users" (catalog d) \/
  (find_relation "users" (catalog d) = None /\
   find_relation "users" (catalog (snd (exec q d))) = Some empty_users) \/
  (exists r,
      find_relation "users" (catalog d) = Some r /\
      find_relation "users" (catalog (snd (exec q d))) = Some (advance r)) \/
  (exists r t,
      find_relation "users" (catalog d) = Some r /\
      find_relation "users" (catalog (snd (exec q d))) = Some (append_tuple r t) /\
      id t = last_value r + 1).
Proof.
  unfold exec. destruct (status d); try (now left).
  destruct q as [| u h | u]; simpl; [| | now left].
  - unfold create_users.
    destruct (existsb (named "users") (catalog d)) eqn:Hx; [now left |].
    right. left.
    pose proof (find_relation_app_none "users" (catalog d) [] Hx) as Hnone.
    rewrite app_nil_r in Hnone. split; [exact Hnone |].
    now rewrite (find_relation_app_none _ _ _ Hx).
  - unfold insert_user.
    destruct (find_relation "users" (catalog d)) as [r |] eqn:Hr; [| now left].
    pose proof (find_relation_named _ _ _ Hr) as Hname.
    destruct (coerce_varchar 50 u) as [u' |];
      [destruct (coerce_varchar 100 h) as [h' |];
       [destruct (taken u' r) |] |]; simpl;
      try (now left);
      try (right; right; left; exists r; split; [reflexivity |];
           now apply (find_put_relation _ _ r)).
    right. right. right. eexists r, _. split; [reflexivity |].
    split; [now apply (find_put_relation _ _ r) | reflexivity].
Qed.

Lemma sorted_append (ids : list Z) (x : Z) :
  StronglySorted Z.lt ids ->
  Forall (fun y => y < x) ids ->
  StronglySorted Z.lt (ids ++ [x]).
Proof.
  induction 1 as [| y ids Hsorted IH Hall]; intro Hlt; simpl.
  - constructor; constructor.
  - inversion Hlt as [| ? ? Hy Hrest]; subst.
    constructor; [now apply IH |].
    apply Forall_app. split; [exact Hall | now constructor].
Qed.

Lemma exec_ids_in_order (q : statement) (d : database) :
  (forall r, find_relation "users" (catalog d) = Some r -> ids_in_order r) ->
  forall r, find_relation "users" (catalog (snd (exec q d))) = Some r ->
            ids_in_order r.
Proof.
  intros Hbefore r' Hafter.
  destruct (exec_relation q d)
    as [H | [[_ H] | [[r [Hr H]] | [r [t [Hr [H Hid]]]]]]];
    rewrite H in Hafter.
  - now apply Hbefore.
  - injection Hafter as <-. split; constructor.
  - injection Hafter as <-. destruct (Hbefore r Hr) as [Hsorted Hle].
    split; [exact Hsorted |]. simpl.
    eapply Forall_impl; [| exact Hle]. simpl. intros; lia.
  - injection Hafter as <-. destruct (Hbefore r Hr) as [Hsorted Hle].
    split; simpl.
    + rewrite map_app. apply sorted_append; [exact Hsorted |].
      apply Forall_map. eapply Forall_impl; [| exact Hle]. simpl. intros; lia.
    + apply Forall_app. split.
      * eapply Forall_impl; [| exact Hle]. simpl. intros; lia.
      * constructor; [lia | constructor].
Qed.

(** X10. Along every run, the ids of the rows of [users] increase in the
    order the rows were stored (so no two rows share an id) and never exceed
    the last value of the sequence. *)
Theorem run_ids_in_order (events : list event) (w : world) :
  (forall r, find_relation "users" (catalog (store w)) = Some r -> ids_in_order r) ->
  forall r, find_relation "users" (catalog (store (run events w))) = Some r ->
            ids_in_order r.
Proof.
  apply (run_catalog_invariant
           (fun cat => forall r, find_relation "users" cat = Some r -> ids_in_order r)).
  intros q d. apply exec_ids_in_order.
Qed.

Lemma exec_count_users (q : statement) (d : database) :
  (count_users (catalog d) <= 1)%nat ->
  (count_users (catalog (snd (exec q d))) <= 1)%nat.
Proof.
  intro H. unfold exec. destruct (status d); try exact H.
  destruct q as [| u h | u]; simpl; [| | exact H].
  - rewrite (count_users_create _ H). lia.
  - unfold insert_user.
    destruct (find_relation "users" (catalog d)) as [r |] eqn:Hr; [| exact H].
    pose proof (find_relation_named _ _ _ Hr) as Hname.
    destruct (coerce_varchar 50 u) as [u' |];
      [destruct (coerce_varchar 100 h) as [h' |];
       [destruct (taken u' r) |] |]; simpl;
      try exact H;
      now rewrite count_users_put.
Qed.

(** X11. No run produces a second [users] relation: a catalog that holds at
    most one before the run holds at most one after it, however often the
    process is started and whatever requests arrive. *)
Theorem run_single_users_relation (events : list event) (w : world) :
  (count_users (catalog (store w)) <= 1)%nat ->
  (count_users (catalog (store (run events w))) <= 1)%nat.
Proof.
  apply (run_catalog_invariant (fun cat => (count_users cat <= 1)%nat)).
  intros q d. apply exec_count_users.
Qed.

(** X12. Rows are only ever appended: after any run, the rows of [users]
    are the rows it had before, unchanged and in the same order, followed
    by the rows the run stored.  Nothing updates or deletes a row. *)
Theorem run_only_appends (events : list event) (w : world) :
  exists more,
    users_of (store (run events w)) = (users_of (store w) ++ more)%list.
Proof.
  revert w. induction events as [| e events IH]; intro w.
  - exists []. now rewrite app_nil_r.
  - destruct (IH (step e w)) as [more Hmore].
    change (run (e :: events) w) with (run events (step e w)).
    destruct (step_users e w) as [H | [salt [req_body [p [t [_ [_ [H _]]]]]]]];
      rewrite H in Hmore.
    + now exists more.
    + exists (t :: more). rewrite Hmore, <- app_assoc. reflexivity.
Qed.


(** * How the operations compose *)


(** What a registration answered 201 has done. *)
Lemma register_created
  (salt : string) (req_body : object) (w w1 : world) (resp : response) :
  register salt req_body w = (Return resp, w1) ->
  status_code resp = 201 ->
  exists p t,
    truthy (get req_body "username") = true /\
    get req_body "password" = VStr p /\ p <> "" /\
    resp = created (returning_row t) /\
    users_of (store w1) = (users_of (store w) ++ [t])%list /\
    coerce_varchar 50 (prepareValue (get req_body "username")) = Some (username t) /\
    coerce_varchar 100 (bcrypt_hash p 10 salt) = Some (password_hash t) /\
    existsb (fun x => username x =? username t) (users_of (store w)) = false /\
    status (store w1) = Healthy.
Proof.
  intros Hreg H201.
  destruct (register_cases salt req_body w) as [H | [[m H] | [p [Hu [Hp Hne]]]]].
  - rewrite H in Hreg. injection Hreg as <- <-. discriminate H201.
  - rewrite H in Hreg. injection Hreg as <- <-. discriminate H201.
  - rewrite (register_run salt req_body w p Hu Hp Hne) in Hreg.
    pose proof (exec_insert_spec (prepareValue (get req_body "username"))
                  (bcrypt_hash p 10 salt) (store w)) as Hspec.
    destruct (exec _ (store w)) as [[rows | e] d].
    + destruct Hspec as [t [Hrows [Husers [Hcu [Hch [Hfree [_ Hs]]]]]]].
      injection Hreg as <- <-. subst rows. exists p, t.
      repeat split; assumption.
    + destruct (strict_equal_string (code e) "23505");
        injection Hreg as <- <-; discriminate H201.
Qed.


(** X14. A registration answered 201 returns the username as the column
    keeps it, at most 50 characters, and that returned username logs in
    with the registered password: whatever the length of the username that
    was sent, logging in with the username of the response is accepted. *)
Theorem returned_username_logs_in
  (salt : string) (req_body : object) (w w1 : world) (u p : string)
  (resp : response) :
  get req_body "username" = VStr u -> u <> "" ->
  get req_body "password" = VStr p ->
  register salt req_body w = (Return resp, w1) ->
  status_code resp = 201 ->
  exists t,
    resp = created (returning_row t) /\
    (char_length (username t) <= 50)%nat /\
    ((char_length u <= 50)%nat -> username t = u) /\
    forall req_body',
      get req_body' "username" = VStr (username t) ->
      get req_body' "password" = VStr p ->
      fst (login req_body' w1) = Return accepted.
Proof.
  intros Hu Hune Hp Hreg H201.
  destruct (register_created _ _ _ _ _ Hreg H201)
    as [p0 [t [_ [Hp0 [Hne [Hresp [Husers [Hcu [Hch [Hfree Hs]]]]]]]]]].
  rewrite Hp in Hp0. injection Hp0 as <-.
  rewrite Hu in Hcu. simpl prepareValue in Hcu.
  destruct (coerce_varchar_sound 49 _ _ Hcu) as [Hlen Hnonempty].
  rewrite (coerce_varchar_fits _ _ (bcrypt_hash_fits p salt)) in Hch.
  injection Hch as Hch.
  destruct (users_of_found (store w1) _ Husers) as [r' [Hr' Htuples]].
  { now destruct (users_of (store w)). }
  exists t. split; [exact Hresp |]. split; [exact Hlen |]. split.
  - intro Hfit. rewrite (coerce_varchar_fits _ _ Hfit) in Hcu. now injection Hcu.
  - intros req_body' Hu' Hp'.
    rewrite (login_found req_body' w1 r' (username t) p t []); try assumption.
    + simpl. now rewrite <- Hch, bcrypt_compare_hash.
    + now apply Hnonempty.
    + rewrite Htuples, filter_app, (filter_none _ _ Hfree). simpl.
      now rewrite String.eqb_refl.
Qed.

Lemma find_relation_create (cat : list relation) :
  exists r,
    find_relation "users" (create_users cat) = Some r /\
    tuples r = match find_relation "users" cat with
               | Some r0 => tuples r0
               | None => []
               end.
Proof.
  unfold create_users. destruct (existsb (named "users") cat) eqn:Hx.
  - apply existsb_exists in Hx as [r0 [Hin Hnamed]].
    destruct (find_relation "users" cat) as [r |] eqn:Hr.
    + now exists r.
    + exfalso. unfold find_relation in Hr.
      apply (find_none _ _ Hr) in Hin. congruence.
  - exists empty_users. rewrite (find_relation_app_none _ _ _ Hx).
    pose proof (find_relation_app_none "users" cat [] Hx) as Hnone.
    rewrite app_nil_r in Hnone. rewrite Hnone. split; reflexivity.
Qed.

(** X15. Start-up makes registration possible whether or not the table
    was there: once the process has started against a store that answers
    and whose sequence, if the table is there, has not reached 2^31-1,
    registering a username that no row holds, non-empty, of at most 50
    characters and without U+0000, with a non-empty password, is answered
    201. *)
Theorem startup_then_registration_succeeds
  (port salt : string) (req_body : object) (w : world) (u p : string) :
  status (store w) = Healthy ->
  (forall r, find_relation "users" (catalog (store w)) = Some r ->
             last_value r < 2147483647) ->
  ~ In u (map username (users_of (store w))) ->
  get req_body "username" = VStr u -> u <> "" ->
  holds_nul u = false ->
  (char_length u <= 50)%nat ->
  get req_body "password" = VStr p -> p <> "" ->
  exists n,
    fst (register salt req_body (app_listen port w)) =
    Return (created (VObj [("id", VNum (number_of_Z n)); ("username", VStr u)])).
Proof.
  intros Hs _ Hfree Hu Hune _ Hfit Hp Hpne.
  destruct (find_relation_create (catalog (store w))) as [r [Hr Htuples]].
  assert (Hstore : store (app_listen port w) =
                   with_catalog (store w) (create_users (catalog (store w)))).
  { rewrite app_listen_store. unfold exec. now rewrite Hs. }
  exists (last_value r + 1).
  apply (register_fresh salt req_body (app_listen port w) r u p); try assumption.
  - now rewrite Hstore.
  - now rewrite Hstore.
  - rewrite Htuples. exact Hfree.
Qed.

(** A SELECT for one username does not see the INSERT of another. *)
Lemma exec_insert_select (u h ua : string) (d : database) :
  coerce_varchar 50 u <> Some ua ->
  fst (exec (SelectUser ua) (snd (exec (InsertUser u h) d))) =
  fst (exec (SelectUser ua) d).
Proof.
  intro Hother. unfold exec at 2.
  destruct (status d) eqn:Hs; try reflexivity.
  unfold insert_user.
  destruct (find_relation "users" (catalog d)) as [r |] eqn:Hr; [| reflexivity].
  pose proof (find_relation_named _ _ _ Hr) as Hname.
  assert (Hsame : forall r', relname r' = "users" ->
            filter (fun t => username t =? ua) (tuples r') =
            filter (fun t => username t =? ua) (tuples r) ->
            fst (exec (SelectUser ua)
                   (with_catalog d (put_relation r' (catalog d)))) =
            fst (exec (SelectUser ua) d)).
  { intros r' Hname' Hfilter. unfold exec. simpl. rewrite Hs. simpl.
    unfold select_user. simpl.
    rewrite (find_put_relation _ _ _ _ Hr Hname'), Hr. now rewrite Hfilter. }
  destruct (coerce_varchar 50 u) as [u' |];
    [destruct (coerce_varchar 100 h) as [h' |];
     [destruct (taken u' r) |] |]; simpl snd;
    try reflexivity;
    try (apply Hsame; [exact Hname | reflexivity]).
  apply Hsame; [exact Hname |]. simpl. rewrite filter_app. simpl.
  destruct (String.eqb_spec u' ua) as [-> | _];
    [now elim Hother | now rewrite app_nil_r].
Qed.

(** X16. A registration does not change what another username's login is
    answered: unless the username the registration stores is the one the
    login sends, the login gets the same response after the registration as
    before it. *)
Theorem registration_leaves_other_logins_alone
  (salt : string) (body_new body_other : object) (w : world) :
  coerce_varchar 50 (prepareValue (get body_new "username")) <>
    Some (prepareValue (get body_other "username")) ->
  fst (login body_other (snd (register salt body_new w))) =
  fst (login body_other w).
Proof.
  intro Hother.
  destruct (truthy (get body_other "username")) eqn:Hu;
    [| now rewrite !login_falsy by (now left)].
  destruct (truthy (get body_other "password")) eqn:Hp;
    [| now rewrite !login_falsy by (now right)].
  rewrite !(login_response body_other _ Hu Hp).
  destruct (register_store salt body_new w) as [-> | [p [_ ->]]];
    [reflexivity |].
  now rewrite (exec_insert_select _ _ _ _ Hother).
Qed.


End Routes.

(** * The stand-ins meet the contract *)

Lemma shaped_hash_length (data salt : string) :
  String.length (shaped_hash data 10 salt) = 60%nat.
Proof.
  destruct data as [| c data]; [reflexivity |].
  destruct c as [[] [] [] [] [] [] [] []]; reflexivity.
Qed.

Lemma shaped_compare_hash (data salt : string) :
  shaped_compare data (shaped_hash data 10 salt) = true.
Proof. unfold shaped_compare, shaped_hash. apply String.eqb_refl. Qed.

Lemma shaped_hash_differs (data salt : string) :
  shaped_hash data 10 salt <> data.
Proof.
  destruct data as [| c data]; [discriminate |].
  destruct c as [[] [] [] [] [] [] [] []]; discriminate.
Qed.

Lemma alice_world_well_formed : well_formed [alice].
Proof.
  split.
  - repeat constructor.
  - simpl. constructor; [intros [] | constructor].
Qed.

(** * The properties on concrete inputs *)

(** C1 fails as stated: the store refuses the schema, and the server serves
    all the same; a registration and a login both get their response, and
    so does a registration that arrives once the store answers again, the
    table still missing. *)
Lemma traffic_despite_failed_schema :
  schema_init_fails denied_world /\
  listening (app_listen "3000" denied_world) = true /\
  option_map fst
    (serve shaped_hash shaped_compare sample_text "salt"
       (PostRegister (credentials "alice" "correct-horse"))
       (app_listen "3000" denied_world)) = Some server_error /\
  option_map fst
    (serve shaped_hash shaped_compare sample_text "salt"
       (PostLogin (credentials "alice" ""))
       (app_listen "3000" denied_world)) = Some bad_request /\
  option_map fst
    (serve shaped_hash shaped_compare sample_text "salt"
       (PostRegister (credentials "alice" "correct-horse"))
       (set_environment (app_listen "3000" denied_world) Healthy 0)) =
    Some server_error.
Proof.
  split; [| repeat split].
  right. exists (PgError "42501"). reflexivity.
Qed.

Lemma failed_schema_is_logged_not_fatal_witness :
  status (store denied_world) = Failing "42501" /\
  listening (app_listen "3000" denied_world) = true /\
  In (ErrorLine "数据库初始化失败:" (PgError "42501"))
     (console (app_listen "3000" denied_world)) /\
  checked_out (app_listen "3000" denied_world) = checked_out denied_world /\
  rejections (app_listen "3000" denied_world) = rejections denied_world /\
  forall salt req,
    exists resp w',
      serve shaped_hash shaped_compare sample_text salt req
        (app_listen "3000" denied_world) = Some (resp, w').
Proof.
  split; [reflexivity |].
  apply (failed_schema_is_logged_not_fatal shaped_hash shaped_compare sample_text
           "3000" denied_world "42501").
  reflexivity.
Defined.

(** C2 fails as stated: a username of fifty letters and a space registers
    on a store without users (the column keeps the fifty letters), and the
    same pair then cannot log in. *)
Lemma padded_username_cannot_log_in :
  padded_name <> "" /\
  users_of (store booted_world) = [] /\
  fst (register shaped_hash sample_text "salt"
         (credentials padded_name "correct-horse") booted_world) =
    Return (created (VObj [("id", VNum (number_of_Z 1));
                           ("username",
                            VStr "aaaaaaaaaaaaaaaaaaaaaaaaaaaaaaaaaaaaaaaaaaaaaaaaaa")])) /\
  fst (login shaped_compare sample_text
         (credentials padded_name "correct-horse")
         (snd (register shaped_hash sample_text "salt"
                 (credentials padded_name "correct-horse") booted_world))) =
    Return rejected.
Proof.
  split; [discriminate |]. repeat split; reflexivity.
Qed.

Lemma register_then_login_accepts_witness :
  (forall data salt, String.length (shaped_hash data 10 salt) = 60%nat) /\
  (forall data salt, shaped_compare data (shaped_hash data 10 salt) = true) /\
  (char_length "alice" <= 50)%nat /\
  ~ In "alice" (map username (users_of (store booted_world))) /\
  status_code
    (created (VObj [("id", VNum (number_of_Z 1)); ("username", VStr "alice")])) = 201 /\
  exists w2,
    login shaped_compare sample_text (credentials "alice" "correct-horse")
      (snd (register shaped_hash sample_text "salt"
              (credentials "alice" "correct-horse") booted_world)) =
    (Return accepted, w2).
Proof.
  split; [exact shaped_hash_length |].
  split; [exact shaped_compare_hash |].
  split; [apply Nat.leb_le; reflexivity |].
  split; [intros [] |].
  split; [reflexivity |].
  apply (register_then_login_accepts shaped_hash shaped_compare sample_text
           shaped_hash_length shaped_compare_hash
           "salt" (credentials "alice" "correct-horse") booted_world
           (snd (register shaped_hash sample_text "salt"
                   (credentials "alice" "correct-horse") booted_world))
           "alice" "correct-horse"
           (created (VObj [("id", VNum (number_of_Z 1));
                           ("username", VStr "alice")]))).
  - reflexivity.
  - discriminate.
  - reflexivity.
  - discriminate.
  - apply Nat.leb_le. reflexivity.
  - intros [].
  - reflexivity.
  - reflexivity.
Defined.


(** C4 fails as stated: bcrypt reads the first 72 bytes of a password, so a
    password that differs from the registered one after them is verified,
    and the login is accepted; and an empty password, or an empty username,
    is answered with the bad-input response and not with the rejection. *)
Lemma differing_password_is_accepted :
  near_password <> long_password /\
  fst (register truncating_hash sample_text "salt"
         (credentials "alice" long_password) booted_world) =
    Return (created (VObj [("id", VNum (number_of_Z 1));
                           ("username", VStr "alice")])) /\
  fst (login truncating_compare sample_text (credentials "alice" near_password)
         (snd (register truncating_hash sample_text "salt"
                 (credentials "alice" long_password) booted_world))) =
    Return accepted /\
  fst (login truncating_compare sample_text (credentials "alice" "")
         (snd (register truncating_hash sample_text "salt"
                 (credentials "alice" long_password) booted_world))) =
    Return bad_request /\
  fst (login truncating_compare sample_text (credentials "" near_password)
         (snd (register truncating_hash sample_text "salt"
                 (credentials "alice" long_password) booted_world))) =
    Return bad_request /\
  accepted <> rejected /\
  bad_request <> rejected.
Proof.
  split; [apply String.eqb_neq; reflexivity |].
  repeat split; try reflexivity; discriminate.
Qed.

Lemma login_rejections_indistinguishable_witness :
  symbolic_compare "wrong" (password_hash alice) = false /\
  holds_nul "bob" = false /\
  ~ In "bob" (map username [alice]) /\
  fst (login symbolic_compare sample_text (credentials "alice" "wrong") alice_world) =
    Return rejected /\
  fst (login symbolic_compare sample_text (credentials "bob" "anything") alice_world) =
    Return rejected /\
  fst (login symbolic_compare sample_text (credentials "alice" "wrong") alice_world) =
  fst (login symbolic_compare sample_text (credentials "bob" "anything") alice_world).
Proof.
  split; [reflexivity |].
  split; [reflexivity |].
  split; [intros [H | []]; discriminate H |].
  apply (login_rejections_indistinguishable symbolic_compare sample_text
           alice_world
           {| relname := "users"; tuples := [alice]; last_value := 1 |}
           alice "wrong" "bob" "anything"
           (credentials "alice" "wrong") (credentials "bob" "anything")).
  - reflexivity.
  - reflexivity.
  - exact alice_world_well_formed.
  - now left.
  - reflexivity.
  - discriminate.
  - reflexivity.
  - discriminate.
  - reflexivity.
  - reflexivity.
  - discriminate.
  - reflexivity.
  - intros [H | []]; discriminate H.
  - reflexivity.
  - discriminate.
Defined.

Lemma stored_hash_is_not_the_password_witness :
  users_of (store fresh_world) = [] /\
  exists salt req_body p,
    In (Arrives salt (PostRegister req_body))
       [Boots "3000"; Arrives "salt" (PostRegister (credentials "alice" "correct-horse"))] /\
    get req_body "password" = VStr p /\
    shaped_hash "correct-horse" 10 "salt" = shaped_hash p 10 salt /\
    shaped_hash "correct-horse" 10 "salt" <> "" /\
    shaped_hash "correct-horse" 10 "salt" <> p.
Proof.
  split; [reflexivity |].
  apply (stored_hash_is_not_the_password shaped_hash shaped_compare sample_text
           shaped_hash_length shaped_hash_differs
           [Boots "3000"; Arrives "salt" (PostRegister (credentials "alice" "correct-horse"))]
           fresh_world
           {| id := 1; username := "alice";
              password_hash := shaped_hash "correct-horse" 10 "salt";
              created_at := 0 |}).
  - reflexivity.
  - vm_compute. left. reflexivity.
Defined.

Lemma bad_input_before_store_witness :
  missing_or_empty (get [("username", VStr "alice")] "password") /\
  register shaped_hash sample_text "salt" [("username", VStr "alice")] booted_world =
    (Return bad_request, booted_world) /\
  login shaped_compare sample_text [("username", VStr "alice")] booted_world =
    (Return bad_request, booted_world).
Proof.
  split; [left; reflexivity |].
  apply (bad_input_before_store shaped_hash shaped_compare sample_text "salt"
           [("username", VStr "alice")] booted_world).
  right. left. reflexivity.
Defined.

Lemma initializeDatabase_idempotent_witness :
  status (store fresh_world) = Healthy /\
  (count_users (catalog (store fresh_world)) <= 1)%nat /\
  exists w1 w2,
    initializeDatabase fresh_world = (Return tt, w1) /\
    initializeDatabase w1 = (Return tt, w2) /\
    count_users (catalog (store w1)) = 1%nat /\
    count_users (catalog (store w2)) = 1%nat /\
    store w2 = store w1 /\
    (count_users (catalog (store fresh_world)) = 1%nat -> store w1 = store fresh_world) /\
    console w2 =
      (console fresh_world ++ [LogLine schema_ready; LogLine schema_ready])%list /\
    checked_out w2 = checked_out fresh_world.
Proof.
  split; [reflexivity |]. split; [vm_compute; lia |].
  apply (initializeDatabase_idempotent fresh_world).
  - reflexivity.
  - vm_compute. lia.
Defined.

Lemma responses_carry_no_secret_witness :
  (forall data salt, String.length (shaped_hash data 10 salt) = 60%nat) /\
  fst (register shaped_hash sample_text "salt" (credentials "alice" "correct-horse")
         booted_world) =
  fst (register shaped_hash sample_text "pepper" (credentials "alice" "$other")
         booted_world).
Proof.
  split; [exact shaped_hash_length |].
  apply (proj1 (proj2 (proj2
           (responses_carry_no_secret shaped_hash shaped_compare sample_text
              shaped_hash_length)))
           "salt" "pepper" (credentials "alice" "correct-horse")
           (credentials "alice" "$other") booted_world "correct-horse" "$other").
  - reflexivity.
  - reflexivity.
  - discriminate.
  - reflexivity.
  - discriminate.
Defined.

(** C9 fails as stated: a registration without a body is turned away
    before the store hears of it; not one statement is handed over. *)
Lemma register_without_write :
  fst (register shaped_hash sample_text "salt" [] booted_world) = Return bad_request /\
  issued (snd (register shaped_hash sample_text "salt" [] booted_world)) =
    issued booted_world /\
  ~ exists q,
      issued (snd (register shaped_hash sample_text "salt" [] booted_world)) =
      (issued booted_world ++ [q])%list.
Proof.
  repeat split. intros [q H]. vm_compute in H. discriminate H.
Qed.

Lemma store_traffic_of_a_call_witness :
  truthy (get (credentials "alice" "correct-horse") "username") = true /\
  issued (snd (register shaped_hash sample_text "salt"
                 (credentials "alice" "correct-horse") booted_world)) =
    (issued booted_world ++
     [InsertUser "alice" (shaped_hash "correct-horse" 10 "salt")])%list.
Proof.
  split; [reflexivity |].
  apply (proj1 (store_traffic_of_a_call shaped_hash shaped_compare sample_text "salt"
                  (credentials "alice" "correct-horse") booted_world)).
  - reflexivity.
  - reflexivity.
  - discriminate.
Defined.

Lemma falsy_field_is_bad_input_witness :
  In (VNum (number_of_Z 0)) falsy_json /\
  register shaped_hash sample_text "salt"
    [("username", VStr "alice"); ("password", VNum (number_of_Z 0))] booted_world =
    (Return bad_request, booted_world) /\
  login shaped_compare sample_text
    [("username", VStr "alice"); ("password", VNum (number_of_Z 0))] booted_world =
    (Return bad_request, booted_world).
Proof.
  split; [left; reflexivity |].
  apply (falsy_field_is_bad_input shaped_hash shaped_compare sample_text "salt"
           [("username", VStr "alice"); ("password", VNum (number_of_Z 0))]
           booted_world (VNum (number_of_Z 0))).
  - left. reflexivity.
  - right. reflexivity.
Defined.

(** * The further properties on concrete inputs *)

Lemma store_outage_is_answered_500_witness :
  status (store denied_world) = Failing "42501" /\
  (fst (register shaped_hash sample_text "salt"
          (credentials "alice" "correct-horse") denied_world) = Return server_error /\
   console (snd (register shaped_hash sample_text "salt"
                   (credentials "alice" "correct-horse") denied_world)) =
     (console denied_world ++ [ErrorLine "" (PgError "42501")])%list /\
   store (snd (register shaped_hash sample_text "salt"
                 (credentials "alice" "correct-horse") denied_world)) =
     store denied_world) /\
  (fst (login shaped_compare sample_text
          (credentials "alice" "correct-horse") denied_world) = Return server_error /\
   console (snd (login shaped_compare sample_text
                   (credentials "alice" "correct-horse") denied_world)) =
     (console denied_world ++ [ErrorLine "" (PgError "42501")])%list /\
   store (snd (login shaped_compare sample_text
                 (credentials "alice" "correct-horse") denied_world)) =
     store denied_world).
Proof.
  split; [reflexivity |].
  apply (store_outage_is_answered_500 shaped_hash shaped_compare sample_text
           "salt" (credentials "alice" "correct-horse") denied_world
           "correct-horse" (PgError "42501")).
  - reflexivity.
  - reflexivity.
  - discriminate.
  - right. exists "42501". split; [reflexivity |]. split; [discriminate | reflexivity].
Defined.

Lemma overlong_username_is_refused_witness :
  holds_nul "aaaaaaaaaaaaaaaaaaaaaaaaaaaaaaaaaaaaaaaaaaaaaaaaaab" = false /\
  (50 < char_length "aaaaaaaaaaaaaaaaaaaaaaaaaaaaaaaaaaaaaaaaaaaaaaaaaab")%nat /\
  fst (register shaped_hash sample_text "salt"
         (credentials "aaaaaaaaaaaaaaaaaaaaaaaaaaaaaaaaaaaaaaaaaaaaaaaaaab" "correct-horse")
         booted_world) = Return server_error /\
  console (snd (register shaped_hash sample_text "salt"
                  (credentials "aaaaaaaaaaaaaaaaaaaaaaaaaaaaaaaaaaaaaaaaaaaaaaaaaab"
                     "correct-horse")
                  booted_world)) =
    (console booted_world ++ [ErrorLine "" (PgError "22001")])%list /\
  store (snd (register shaped_hash sample_text "salt"
                (credentials "aaaaaaaaaaaaaaaaaaaaaaaaaaaaaaaaaaaaaaaaaaaaaaaaaab"
                   "correct-horse")
                booted_world)) =
    store booted_world.
Proof.
  split; [reflexivity |].
  split; [apply Nat.ltb_lt; reflexivity |].
  apply (overlong_username_is_refused shaped_hash sample_text "salt"
           (credentials "aaaaaaaaaaaaaaaaaaaaaaaaaaaaaaaaaaaaaaaaaaaaaaaaaab" "correct-horse")
           booted_world empty_users
           "aaaaaaaaaaaaaaaaaaaaaaaaaaaaaaaaaaaaaaaaaaaaaaaaaab" "correct-horse").
  - reflexivity.
  - reflexivity.
  - reflexivity.
  - reflexivity.
  - apply Nat.ltb_lt. reflexivity.
  - reflexivity.
  - reflexivity.
  - discriminate.
Defined.

Lemma missing_table_is_answered_500_witness :
  find_relation "users" (catalog (store fresh_world)) = None /\
  fst (register shaped_hash sample_text "salt"
         (credentials "alice" "correct-horse") fresh_world) = Return server_error /\
  fst (login shaped_compare sample_text
         (credentials "alice" "correct-horse") fresh_world) = Return server_error.
Proof.
  split; [reflexivity |].
  destruct (missing_table_is_answered_500 shaped_hash shaped_compare sample_text
              "salt" (credentials "alice" "correct-horse") fresh_world
              "correct-horse")
    as [[Hregister _] [Hlogin _]].
  - reflexivity.
  - reflexivity.
  - reflexivity.
  - reflexivity.
  - discriminate.
  - split; [exact Hregister | exact Hlogin].
Defined.

Lemma non_string_password_tells_usernames_apart_witness :
  truthy (VNum (number_of_Z 5)) = true /\
  holds_nul "bob" = false /\
  fst (login symbolic_compare sample_text
         [("username", VStr "alice"); ("password", VNum (number_of_Z 5))]
         alice_world) = Return server_error /\
  fst (login symbolic_compare sample_text
         [("username", VStr "bob"); ("password", VNum (number_of_Z 5))]
         alice_world) = Return rejected.
Proof.
  split; [reflexivity |].
  split; [reflexivity |].
  apply (non_string_password_tells_usernames_apart symbolic_compare sample_text
           alice_world
           {| relname := "users"; tuples := [alice]; last_value := 1 |}
           alice "bob" (VNum (number_of_Z 5))
           [("username", VStr "alice"); ("password", VNum (number_of_Z 5))]
           [("username", VStr "bob"); ("password", VNum (number_of_Z 5))]).
  - reflexivity.
  - reflexivity.
  - exact alice_world_well_formed.
  - now left.
  - reflexivity.
  - discriminate.
  - reflexivity.
  - discriminate.
  - reflexivity.
  - reflexivity.
  - discriminate.
  - reflexivity.
  - intros [H | []]; discriminate H.
  - reflexivity.
Defined.

Lemma accepted_login_has_a_verified_row_witness :
  fst (login symbolic_compare sample_text
         (credentials "alice" "correct-horse") alice_world) = Return accepted /\
  exists p t,
    get (credentials "alice" "correct-horse") "password" = VStr p /\ p <> "" /\
    status (store alice_world) = Healthy /\
    In t (users_of (store alice_world)) /\
    username t = prepareValue sample_text (get (credentials "alice" "correct-horse") "username") /\
    symbolic_compare p (password_hash t) = true.
Proof.
  split; [reflexivity |].
  apply (accepted_login_has_a_verified_row symbolic_compare sample_text
           (credentials "alice" "correct-horse") alice_world).
  reflexivity.
Defined.

Lemma unreachable_store_at_startup_witness :
  status (store unreachable_world) = Unreachable /\
  initializeDatabase unreachable_world = (Throw ConnError, unreachable_world) /\
  rejections (app_listen "3000" unreachable_world) =
    (rejections unreachable_world ++ [ConnError])%list /\
  issued (app_listen "3000" unreachable_world) = issued unreachable_world /\
  console (app_listen "3000" unreachable_world) =
    (console unreachable_world ++
     [LogLine ("服务器正在端口 " ++ "3000" ++ " 上运行...")])%list /\
  listening (app_listen "3000" unreachable_world) =
    negb (strict_rejections unreachable_world).
Proof.
  split; [reflexivity |].
  apply (unreachable_store_at_startup "3000" unreachable_world).
  reflexivity.
Defined.

Lemma run_well_formed_witness :
  well_formed (users_of (store fresh_world)) /\
  well_formed
    (users_of (store (run shaped_hash shaped_compare sample_text
                        [Boots "3000";
                         Arrives "salt" (PostRegister (credentials "alice" "correct-horse"));
                         Arrives "salt" (PostRegister (credentials "alice" "other"))]
                        fresh_world))).
Proof.
  assert (H : well_formed (users_of (store fresh_world))).
  { split; constructor. }
  split; [exact H |].
  apply (run_well_formed shaped_hash shaped_compare sample_text). exact H.
Defined.

Lemma run_ids_in_order_witness :
  find_relation "users" (catalog (store fresh_world)) = None /\
  forall r,
    find_relation "users"
      (catalog (store (run shaped_hash shaped_compare sample_text
                         [Boots "3000";
                          Arrives "salt" (PostRegister (credentials "alice" "correct-horse"));
                          Arrives "salt" (PostRegister (credentials "bob" "other"))]
                         fresh_world))) = Some r ->
    ids_in_order r.
Proof.
  split; [reflexivity |].
  apply (run_ids_in_order shaped_hash shaped_compare sample_text).
  intros r H. discriminate H.
Defined.

Lemma run_single_users_relation_witness :
  (count_users (catalog (store fresh_world)) <= 1)%nat /\
  (count_users
     (catalog (store (run shaped_hash shaped_compare sample_text
                        [Boots "3000"; Boots "3000";
                         Arrives "salt" (PostRegister (credentials "alice" "correct-horse"))]
                        fresh_world))) <= 1)%nat.
Proof.
  split; [vm_compute; lia |].
  apply (run_single_users_relation shaped_hash shaped_compare sample_text).
  vm_compute. lia.
Defined.


Lemma returned_username_logs_in_witness :
  padded_name <> "" /\
  exists t,
    created (VObj [("id", VNum (number_of_Z 1));
                   ("username",
                    VStr "aaaaaaaaaaaaaaaaaaaaaaaaaaaaaaaaaaaaaaaaaaaaaaaaaa")]) =
      created (returning_row t) /\
    (char_length (username t) <= 50)%nat /\
    ((char_length padded_name <= 50)%nat -> username t = padded_name) /\
    forall req_body',
      get req_body' "username" = VStr (username t) ->
      get req_body' "password" = VStr "correct-horse" ->
      fst (login shaped_compare sample_text req_body'
             (snd (register shaped_hash sample_text "salt"
                     (credentials padded_name "correct-horse") booted_world))) =
      Return accepted.
Proof.
  split; [discriminate |].
  apply (returned_username_logs_in shaped_hash shaped_compare sample_text
           shaped_hash_length shaped_compare_hash
           "salt" (credentials padded_name "correct-horse") booted_world
           (snd (register shaped_hash sample_text "salt"
                   (credentials padded_name "correct-horse") booted_world))
           padded_name "correct-horse").
  - reflexivity.
  - discriminate.
  - reflexivity.
  - reflexivity.
  - reflexivity.
Defined.

Lemma startup_then_registration_succeeds_witness :
  status (store fresh_world) = Healthy /\
  holds_nul "alice" = false /\
  exists n,
    fst (register shaped_hash sample_text "salt"
           (credentials "alice" "correct-horse") (app_listen "3000" fresh_world)) =
    Return (created (VObj [("id", VNum (number_of_Z n)); ("username", VStr "alice")])).
Proof.
  split; [reflexivity |].
  split; [reflexivity |].
  apply (startup_then_registration_succeeds shaped_hash sample_text shaped_hash_length
           "3000" "salt" (credentials "alice" "correct-horse") fresh_world
           "alice" "correct-horse").
  - reflexivity.
  - intros r H. discriminate H.
  - intros [].
  - reflexivity.
  - discriminate.
  - reflexivity.
  - apply Nat.leb_le. reflexivity.
  - reflexivity.
  - discriminate.
Defined.

Lemma registration_leaves_other_logins_alone_witness :
  coerce_varchar 50 "bob" <> Some "alice" /\
  fst (login symbolic_compare sample_text (credentials "alice" "correct-horse")
         (snd (register symbolic_hash sample_text "salt"
                 (credentials "bob" "other") alice_world))) =
  fst (login symbolic_compare sample_text (credentials "alice" "correct-horse")
         alice_world).
Proof.
  split; [discriminate |].
  apply (registration_leaves_other_logins_alone symbolic_hash symbolic_compare
           sample_text "salt" (credentials "bob" "other")
           (credentials "alice" "correct-horse") alice_world).
  discriminate.
Defined.
